(** * api.py: the upload / chat / status service, embedded in Rocq

    The module [api.py] wires a PDF upload to a text extractor, a chunker, a
    vector index and an LLM-backed query engine, and exposes three Flask
    handlers.  Everything the module does itself is control flow: which
    library call runs after which, which exceptions are caught where, and
    what each handler answers.  That control flow is what is embedded here.

    - Python values keep their shape: [str] is [string], a [dict] is a
      [gmap string _], a [set] a [gset], an attribute that may be [None] an
      [option].
    - Library objects are records of the methods the module calls on them;
      every call yields an [outcome]: a value or a raised exception.
    - Methods of [Chatbot] run in a small monad over the object [self];
      handlers run in the same monad over the module variable [chatbot].
      Whatever a computation assigned before it raised stays assigned. *)

From Stdlib Require Import ZArith Ascii String.
From stdpp Require Import base option list strings gmap.

Local Open Scope string_scope.
Set Warnings "-register-all".

(** ** Exceptions and outcomes *)

(** An exception instance: its class name and [str(e)].  Every exception of
    the model derives from [Exception], which is what the module's handlers
    catch ([except Exception as e]). *)
Record exn := Exception { exn_class : string; exn_str : string }.

Inductive outcome (A : Type) : Type :=
| Ret (a : A)
| Raise (e : exn).
Arguments Ret {A} a.
Arguments Raise {A} e.

Definition IndexError (msg : string) : exn := Exception "IndexError" msg.
Definition TypeError (msg : string) : exn := Exception "TypeError" msg.
Definition AttributeError (msg : string) : exn := Exception "AttributeError" msg.

(** ** Strings *)

Module PyStr.

(** [c in s] for a one-character [c]. *)
Fixpoint contains_char (c : ascii) (s : string) : bool :=
  match s with
  | EmptyString => false
  | String a r => if Ascii.eqb a c then true else contains_char c r
  end.

(** [s.rsplit(c, 1)] when [c] occurs in [s]: the text before the last
    occurrence and the text after it. *)
Fixpoint rsplit_last (c : ascii) (s : string) : option (string * string) :=
  match s with
  | EmptyString => None
  | String a r =>
      match rsplit_last c r with
      | Some (pre, post) => Some (String a pre, post)
      | None => if Ascii.eqb a c then Some (EmptyString, r) else None
      end
  end.

(** [s.rsplit(c, 1)]: one cut at the last [c], or [s] alone. *)
Definition rsplit1 (c : ascii) (s : string) : list string :=
  match rsplit_last c s with
  | Some (pre, post) => [pre; post]
  | None => [s]
  end.

(** [l[i]] on a list. *)
Definition getitem {A} (l : list A) (i : nat) : outcome A :=
  match l !! i with
  | Some x => Ret x
  | None => Raise (IndexError "list index out of range")
  end.

(** [c.lower()] on one character: A..Z go to a..z, the rest is kept. *)
Definition lower_char (c : ascii) : ascii :=
  let n := nat_of_ascii c in
  if (65 <=? n)%nat && (n <=? 90)%nat then ascii_of_nat (n + 32) else c.

Fixpoint lower (s : string) : string :=
  match s with
  | EmptyString => EmptyString
  | String a r => String (lower_char a) (lower r)
  end.

(** [s.startswith(p)] and [p in s] for strings. *)
Fixpoint startswith (p s : string) : bool :=
  match p, s with
  | EmptyString, _ => true
  | String _ _, EmptyString => false
  | String a p', String b s' => Ascii.eqb a b && startswith p' s'
  end.

Fixpoint contains (p s : string) : bool :=
  startswith p s ||
  match s with
  | EmptyString => false
  | String _ r => contains p r
  end.

Fixpoint endswith_char (c : ascii) (s : string) : bool :=
  match s with
  | EmptyString => false
  | String a EmptyString => Ascii.eqb a c
  | String _ r => endswith_char c r
  end.

End PyStr.

(** ** The extension filter *)

Definition UPLOAD_FOLDER : string := "uploads".
Definition ALLOWED_EXTENSIONS : gset string := {["pdf"]}.

(** [allowed_file]: [and] evaluates its right operand only when the left one
    is true; the subscript [[1]] raises when the list is too short. *)
Definition allowed_file (filename : string) : outcome bool :=
  if PyStr.contains_char "." filename then
    match PyStr.getitem (PyStr.rsplit1 "." filename) 1 with
    | Ret ext => Ret (bool_decide (PyStr.lower ext ∈ ALLOWED_EXTENSIONS))
    | Raise e => Raise e
    end
  else Ret false.


(** ** Python values that travel in JSON bodies *)

(** What [request.json] can evaluate to, and what [jsonify] is given.
    Numbers are the integers; a float body behaves like an integer one in
    every test the module makes (truth value, [in], subscript). *)
Inductive value : Type :=
| VNone
| VBool (b : bool)
| VInt (n : Z)
| VStr (s : string)
| VList (l : list value)
| VDict (d : gmap string value).

Module Py.

(** [bool(v)], as [not v] and [if v] use it. *)
Definition truthy (v : value) : bool :=
  match v with
  | VNone => false
  | VBool b => b
  | VInt n => negb (n =? 0)%Z
  | VStr s => negb (String.eqb s "")
  | VList l => negb (bool_decide (length l = 0))
  | VDict d => negb (bool_decide (size d = 0))
  end.

(** [k in v] for a string [k]: a key of a dict, an element of a list, a
    substring of a string; the other values are not containers. *)
Definition contains (k : string) (v : value) : outcome bool :=
  match v with
  | VDict d => Ret (bool_decide (is_Some (d !! k)))
  | VList l =>
      Ret (existsb (fun x => match x with
                             | VStr s => String.eqb s k
                             | _ => false
                             end) l)
  | VStr s => Ret (PyStr.contains k s)
  | VNone => Raise (TypeError "argument of type 'NoneType' is not iterable")
  | VBool _ => Raise (TypeError "argument of type 'bool' is not iterable")
  | VInt _ => Raise (TypeError "argument of type 'int' is not iterable")
  end.

(** [v[k]] for a string [k]. *)
Definition getitem (v : value) (k : string) : outcome value :=
  match v with
  | VDict d =>
      match d !! k with
      | Some x => Ret x
      | None => Raise (Exception "KeyError" k)
      end
  | VList _ => Raise (TypeError "list indices must be integers or slices, not str")
  | VStr _ => Raise (TypeError "string indices must be integers, not 'str'")
  | VNone => Raise (TypeError "'NoneType' object is not subscriptable")
  | VBool _ => Raise (TypeError "'bool' object is not subscriptable")
  | VInt _ => Raise (TypeError "'int' object is not subscriptable")
  end.

(** [os.path.join(a, b)] on a POSIX system. *)
Definition path_join (a b : string) : string :=
  if PyStr.startswith "/" b then b
  else if String.eqb a "" || PyStr.endswith_char "/" a then a +:+ b
  else a +:+ "/" +:+ b.

End Py.

(** ** What a run leaves behind *)

Inductive Event : Type :=
| Printed (line : string)     (* print(line) *)
| Called (api : string)       (* a library or service call was made *)
| Saved (path : string)       (* file.save(path) returned *)
| Opened                      (* pymupdf.open returned a document *)
| Closed.                     (* document.close() returned *)

(** Documents opened and not closed along a trace. *)
Fixpoint open_handles (t : list Event) (n : nat) : nat :=
  match t with
  | [] => n
  | Opened :: t' => open_handles t' (S n)
  | Closed :: t' => open_handles t' (pred n)
  | _ :: t' => open_handles t' n
  end.

(** ** The monad of methods and handlers *)

Record Run (S A : Type) : Type :=
  MkRun { result : outcome A; final : S; trace : list Event }.
Arguments MkRun {S A} result final trace.
Arguments result {S A} r.
Arguments final {S A} r.
Arguments trace {S A} r.

Definition M (S A : Type) : Type := S -> Run S A.

Section Monad.
Context {S : Type}.

Definition ret {A} (a : A) : M S A := fun s => MkRun (Ret a) s [].

Definition raise {A} (e : exn) : M S A := fun s => MkRun (Raise e) s [].

Definition bind {A B} (m : M S A) (k : A -> M S B) : M S B := fun s =>
  match m s with
  | MkRun (Ret a) s1 t1 =>
      match k a s1 with
      | MkRun o s2 t2 => MkRun o s2 (t1 ++ t2)
      end
  | MkRun (Raise e) s1 t1 => MkRun (Raise e) s1 t1
  end.

(** [try: body  except Exception as e: handler e]. *)
Definition try_except {A} (body : M S A) (handler : exn -> M S A) : M S A :=
  fun s =>
    match body s with
    | MkRun (Ret a) s1 t1 => MkRun (Ret a) s1 t1
    | MkRun (Raise e) s1 t1 =>
        match handler e s1 with
        | MkRun o s2 t2 => MkRun o s2 (t1 ++ t2)
        end
    end.

Definition gets {A} (f : S -> A) : M S A := fun s => MkRun (Ret (f s)) s [].

Definition modify (f : S -> S) : M S unit := fun s => MkRun (Ret tt) (f s) [].

Definition emit (ev : Event) : M S unit := fun s => MkRun (Ret tt) s [ev].

(** A call into a library: it is recorded, then it returns or raises. *)
Definition call {A} (api : string) (o : outcome A) : M S A :=
  fun s => MkRun o s [Called api].

(** A computation of the module itself that may raise. *)
Definition lift {A} (o : outcome A) : M S A := fun s => MkRun o s [].

Definition print (line : string) : M S unit := emit (Printed line).

End Monad.

Notation "x <-- m ;; k" := (bind m (fun x => k))
  (at level 100, m at next level, right associativity).
Notation "m ;;; k" := (bind m (fun _ => k))
  (at level 100, right associativity).

(** ** Library objects, as far as the module uses them *)

Record LLM := { llm_model : string; llm_api_key : option string }.
Record Embedding := { embed_api_key : option string }.
Record AuthApiKey := { api_key : option string }.
Record Client := { cluster_url : option string; auth_credentials : AuthApiKey }.
Record VectorStore := { weaviate_client : option Client; index_name : string }.
Record StorageContext := { storage_vector_store : option VectorStore }.
Record Document := { text : string }.

(** [str(response)], [query_engine.query(q)], [index.as_query_engine(llm=l)]. *)
Record Response := { response_str : outcome string }.
Record QueryEngine := { query : value -> outcome Response }.
Record Index := { as_query_engine : option LLM -> outcome QueryEngine }.

(** [page.get_text()], the pages a document iterates over, [document.close()]. *)
Record Page := { get_text : outcome string }.
Record PdfDocument := { pages : list Page; close : outcome unit }.

(** [text_splitter.split_text(text)]. *)
Record Splitter := { split_text : string -> outcome (list string) }.

(** [file.filename] and [file.save(path)] of an uploaded file. *)
Record FileStorage := { fs_filename : string; fs_save : string -> outcome unit }.

(** The libraries and services behind the module, for the span of one
    request: what each constructor or function answers. *)
Record World := {
  getenv : string -> option string;
  OpenAI : string -> option string -> outcome LLM;
  OpenAIEmbedding : option string -> outcome Embedding;
  connect_to_wcs : option string -> AuthApiKey -> outcome Client;
  WeaviateVectorStore : option Client -> string -> outcome VectorStore;
  pymupdf_open : option string -> outcome PdfDocument;
  TokenTextSplitter : nat -> nat -> outcome Splitter;
  StorageContext_from_defaults : option VectorStore -> outcome StorageContext;
  VectorStoreIndex_from_documents :
    list Document -> StorageContext -> option Embedding -> outcome Index;
  secure_filename : string -> string
}.

(** ** class Chatbot *)

Record Chatbot := {
  filename : option string;
  llm : option LLM;
  embeddings : option Embedding;
  client : option Client;
  vector_store : option VectorStore;
  index : option Index;
  summary : option string
}.

(** [Chatbot.__init__] *)
Definition Chatbot_init : Chatbot :=
  {| filename := None; llm := None; embeddings := None; client := None;
     vector_store := None; index := None; summary := None |}.

(** Attribute assignment [self.x = v]. *)
Definition set_filename (v : option string) (c : Chatbot) : Chatbot :=
  {| filename := v; llm := llm c; embeddings := embeddings c; client := client c;
     vector_store := vector_store c; index := index c; summary := summary c |}.
Definition set_llm (v : option LLM) (c : Chatbot) : Chatbot :=
  {| filename := filename c; llm := v; embeddings := embeddings c; client := client c;
     vector_store := vector_store c; index := index c; summary := summary c |}.
Definition set_embeddings (v : option Embedding) (c : Chatbot) : Chatbot :=
  {| filename := filename c; llm := llm c; embeddings := v; client := client c;
     vector_store := vector_store c; index := index c; summary := summary c |}.
Definition set_client (v : option Client) (c : Chatbot) : Chatbot :=
  {| filename := filename c; llm := llm c; embeddings := embeddings c; client := v;
     vector_store := vector_store c; index := index c; summary := summary c |}.
Definition set_vector_store (v : option VectorStore) (c : Chatbot) : Chatbot :=
  {| filename := filename c; llm := llm c; embeddings := embeddings c; client := client c;
     vector_store := v; index := index c; summary := summary c |}.
Definition set_index (v : option Index) (c : Chatbot) : Chatbot :=
  {| filename := filename c; llm := llm c; embeddings := embeddings c; client := client c;
     vector_store := vector_store c; index := v; summary := summary c |}.
Definition set_summary (v : option string) (c : Chatbot) : Chatbot :=
  {| filename := filename c; llm := llm c; embeddings := embeddings c; client := client c;
     vector_store := vector_store c; index := index c; summary := v |}.

Definition NOT_PROCESSED : string :=
  "Sorry, the document hasn't been processed correctly. Unable to answer queries.".
Definition NO_SUMMARY : string :=
  "Failed to process document. No summary available.".
Definition SUMMARY_QUERY : string :=
  "Please provide a brief summary of the document.".

Definition _connect_to_weaviate (w : World) : M Chatbot Client :=
  call "weaviate.connect_to_wcs"
    (connect_to_wcs w (getenv w "WEAVIATE_CLUSTER_URL")
       {| api_key := getenv w "WEAVIATE_API_KEY" |}).

Definition _create_vector_store (w : World) : M Chatbot VectorStore :=
  cl <-- gets client ;;
  call "WeaviateVectorStore" (WeaviateVectorStore w cl "Chatbot").

(** The loop [for page in document: extracted_text += page.get_text()]. *)
Fixpoint read_pages (ps : list Page) (extracted_text : string) : M Chatbot string :=
  match ps with
  | [] => ret extracted_text
  | page :: rest =>
      t <-- call "page.get_text" (get_text page) ;;
      read_pages rest (extracted_text +:+ t)
  end.

Definition _extract_text_from_pdf (w : World) : M Chatbot string :=
  let extracted_text := "" in
  try_except
    (fn <-- gets filename ;;
     document <-- call "pymupdf.open" (pymupdf_open w fn) ;;
     emit Opened ;;;
     extracted_text <-- read_pages (pages document) extracted_text ;;
     call "document.close" (close document) ;;;
     emit Closed ;;;
     ret extracted_text)
    (fun e =>
       print ("Error extracting text from PDF: " +:+ exn_str e) ;;;
       ret "").

Definition _chunk_text (w : World) (txt : string) : M Chatbot (list string) :=
  text_splitter <-- call "TokenTextSplitter" (TokenTextSplitter w 512 20) ;;
  call "text_splitter.split_text" (split_text text_splitter txt).

Definition _process_document (w : World) : M Chatbot (option Index) :=
  try_except
    (extracted_text <-- _extract_text_from_pdf w ;;
     chunks <-- _chunk_text w extracted_text ;;
     let docs := map (fun chunk => {| text := chunk |}) chunks in
     vs <-- gets vector_store ;;
     storage_context <--
       call "StorageContext.from_defaults" (StorageContext_from_defaults w vs) ;;
     em <-- gets embeddings ;;
     idx <-- call "VectorStoreIndex.from_documents"
               (VectorStoreIndex_from_documents w docs storage_context em) ;;
     ret (Some idx))
    (fun e =>
       print ("Error processing document: " +:+ exn_str e) ;;;
       ret None).

Definition ask_query (q : value) : M Chatbot string :=
  i <-- gets index ;;
  match i with
  | None => ret NOT_PROCESSED
  | Some idx =>
      try_except
        (l <-- gets llm ;;
         query_engine <-- call "index.as_query_engine" (as_query_engine idx l) ;;
         response <-- call "query_engine.query" (query query_engine q) ;;
         call "str" (response_str response))
        (fun e => ret ("Error processing query: " +:+ exn_str e))
  end.

Definition get_initial_summary : M Chatbot string :=
  i <-- gets index ;;
  match i with
  | None => ret NO_SUMMARY
  | Some _ => ask_query (VStr SUMMARY_QUERY)
  end.

Definition _initialize_with_file (w : World) (path : string) : M Chatbot unit :=
  modify (set_filename (Some path)) ;;;
  l <-- call "OpenAI" (OpenAI w "gpt-4-1106-preview" (getenv w "OPENAI_API_KEY")) ;;
  modify (set_llm (Some l)) ;;;
  em <-- call "OpenAIEmbedding" (OpenAIEmbedding w (getenv w "OPENAI_API_KEY")) ;;
  modify (set_embeddings (Some em)) ;;;
  cl <-- _connect_to_weaviate w ;;
  modify (set_client (Some cl)) ;;;
  vs <-- _create_vector_store w ;;
  modify (set_vector_store (Some vs)) ;;;
  i <-- _process_document w ;;
  modify (set_index i) ;;;
  s <-- get_initial_summary ;;
  modify (set_summary (Some s)).

(** ** The handlers *)

(** [request.files] and [request.json].  Reading [request.json] parses the
    body: it yields the parsed value, or raises werkzeug's [BadRequest] or
    [UnsupportedMediaType] when the body is not JSON. *)
Record Request := { files : gmap string FileStorage; json : outcome value }.

Record HttpResponse := { body : value; status_code : nat }.

(** [jsonify(d)] alone answers 200; [jsonify(d), code] answers [code]. *)
Definition jsonify (d : gmap string value) : HttpResponse :=
  {| body := VDict d; status_code := 200 |}.
Definition jsonify_with (d : gmap string value) (code : nat) : HttpResponse :=
  {| body := VDict d; status_code := code |}.

Definition opt_str (o : option string) : value :=
  match o with Some s => VStr s | None => VNone end.

(** A method call [chatbot.m(...)] on the object the module variable holds:
    the object is updated in place, also when the method raises. *)
Definition on_chatbot {A} (m : M Chatbot A) : M (option Chatbot) A := fun g =>
  match g with
  | Some c => match m c with MkRun o c' t => MkRun o (Some c') t end
  | None => MkRun (Raise (AttributeError "'NoneType' object has no attribute")) None []
  end.

(** [bool(file)] of an uploaded file is [bool(file.filename)]. *)
Definition fs_truthy (file : FileStorage) : bool :=
  negb (String.eqb (fs_filename file) "").

Definition upload_file (w : World) (request : Request)
  : M (option Chatbot) HttpResponse :=
  match files request !! "file" with
  | None => ret (jsonify_with {["error" := VStr "No file part"]} 400)
  | Some file =>
      if String.eqb (fs_filename file) "" then
        ret (jsonify_with {["error" := VStr "No selected file"]} 400)
      else
        ok <-- (if fs_truthy file then lift (allowed_file (fs_filename file))
                else ret false) ;;
        if ok then
          let name := secure_filename w (fs_filename file) in
          let filepath := Py.path_join UPLOAD_FOLDER name in
          call "file.save" (fs_save file filepath) ;;;
          emit (Saved filepath) ;;;
          modify (fun _ => Some Chatbot_init) ;;;
          on_chatbot (_initialize_with_file w filepath) ;;;
          s <-- on_chatbot (gets summary) ;;
          ret (jsonify (<["message" := VStr "File uploaded successfully"]>
                          {["summary" := opt_str s]}))
        else
          ret (jsonify_with {["error" := VStr "Invalid file type"]} 400)
  end.

Definition chat (request : Request) : M (option Chatbot) HttpResponse :=
  g <-- gets id ;;
  match g with
  | None => ret (jsonify_with {["error" := VStr "Please upload a document first"]} 400)
  | Some _ =>
      data <-- lift (json request) ;;
      missing <-- (if negb (Py.truthy data) then ret true
                   else present <-- lift (Py.contains "message" data) ;;
                        ret (negb present)) ;;
      if (missing : bool) then
        ret (jsonify_with {["error" := VStr "No message provided"]} 400)
      else
        q <-- lift (Py.getitem data "message") ;;
        response <-- on_chatbot (ask_query q) ;;
        ret (jsonify {["response" := VStr response]})
  end.

Definition status : M (option Chatbot) HttpResponse :=
  g <-- gets id ;;
  ret (jsonify (<["initialized" := VBool (bool_decide (is_Some g))]>
                  {["summary" := match g with
                                 | Some c => opt_str (summary c)
                                 | None => VNone
                                 end]})).

(** ** The service over time *)

(** The module variable when the service starts: [chatbot = None]. *)
Definition chatbot_at_start : option Chatbot := None.

(** One request to the service, with the libraries as they are while it is
    handled. *)
Inductive Call : Type :=
| Upload (w : World) (request : Request)
| Chat (request : Request)
| Status.

Definition handle (call : Call) : M (option Chatbot) HttpResponse :=
  match call with
  | Upload w request => upload_file w request
  | Chat request => chat request
  | Status => status
  end.

(** The module variable after a history of requests, oldest first.  A
    handler that raises still leaves its assignments behind. *)
Fixpoint after (history : list Call) (g : option Chatbot) : option Chatbot :=
  match history with
  | [] => g
  | call :: rest => after rest (final (handle call g))
  end.

Definition is_upload (call : Call) : bool :=
  match call with Upload _ _ => true | _ => false end.

(** ** Vocabulary of the properties *)

(** A computation that leaves the object it runs on as it found it. *)
Definition readonly {S A} (m : M S A) : Prop :=
  forall s, final (m s) = s.

(** A computation that returns, whatever the libraries do. *)
Definition total {S A} (m : M S A) : Prop :=
  forall s, exists a, result (m s) = Ret a.

(** [msg] contains [part]. *)
Definition embeds (part msg : string) : Prop :=
  exists pre post, msg = pre +:+ part +:+ post.

(** The request carries a file that the upload handler accepts and stores
    under [path]. *)
Definition stored_upload (w : World) (request : Request) (path : string) : Prop :=
  exists file,
    files request !! "file" = Some file /\
    allowed_file (fs_filename file) = Ret true /\
    path = Py.path_join UPLOAD_FOLDER (secure_filename w (fs_filename file)) /\
    fs_save file path = Ret tt.


(** The text of all pages, in order and without separator, unless a page
    cannot be read. *)
Fixpoint page_texts (ps : list Page) : outcome string :=
  match ps with
  | [] => Ret ""
  | page :: rest =>
      match get_text page, page_texts rest with
      | Ret t, Ret ts => Ret (t +:+ ts)
      | Raise e, _ => Raise e
      | Ret _, Raise e => Raise e
      end
  end.

(** The request carries a file whose name [allowed_file] accepts. *)
Definition accepted (request : Request) : Prop :=
  exists file,
    files request !! "file" = Some file /\
    allowed_file (fs_filename file) = Ret true.

(** The shape of every session the service can hold: the path is set first;
    an index is only assigned once the four set-up objects are, and is
    followed by the summary; a session left without an index has either no
    summary yet or the fixed sentence. *)
Definition well_formed (c : Chatbot) : Prop :=
  is_Some (filename c) /\
  (is_Some (index c) ->
   is_Some (llm c) /\ is_Some (embeddings c) /\ is_Some (client c) /\
   is_Some (vector_store c) /\ is_Some (summary c)) /\
  (index c = None -> summary c = None \/ summary c = Some NO_SUMMARY).

Definition session_ok (g : option Chatbot) : Prop :=
  match g with
  | None => True
  | Some c => well_formed c
  end.

(** ** Concrete libraries, files and requests *)

Module Scenario.

(** An index over no documents: every query gets the engine's stock
    answer. *)
Definition empty_response : Response := {| response_str := Ret "Empty Response" |}.
Definition empty_engine : QueryEngine := {| query := fun _ => Ret empty_response |}.
Definition empty_index : Index := {| as_query_engine := fun _ => Ret empty_engine |}.

(** A splitter that cuts nothing: no chunk for the empty text, one chunk
    otherwise. *)
Definition whole_text_splitter : Splitter :=
  {| split_text := fun t => Ret (if String.eqb t "" then [] else [t]) |}.

(** A scanned PDF: one page, no text layer. *)
Definition scanned_pdf : PdfDocument :=
  {| pages := [ {| get_text := Ret "" |} ]; close := Ret tt |}.

(** A PDF whose second page cannot be decoded. *)
Definition damaged_pdf : PdfDocument :=
  {| pages := [ {| get_text := Ret "Hello world." |};
                {| get_text := Raise (Exception "RuntimeError" "cannot decode page") |} ];
     close := Ret tt |}.

(** Every service answers; the uploaded file is [doc]. *)
Definition services_up (doc : PdfDocument) : World := {|
  getenv := fun name => Some ("<" +:+ name +:+ ">");
  OpenAI := fun m k => Ret {| llm_model := m; llm_api_key := k |};
  OpenAIEmbedding := fun k => Ret {| embed_api_key := k |};
  connect_to_wcs := fun u a => Ret {| cluster_url := u; auth_credentials := a |};
  WeaviateVectorStore := fun c n => Ret {| weaviate_client := c; index_name := n |};
  pymupdf_open := fun _ => Ret doc;
  TokenTextSplitter := fun _ _ => Ret whole_text_splitter;
  StorageContext_from_defaults := fun v => Ret {| storage_vector_store := v |};
  VectorStoreIndex_from_documents := fun _ _ _ => Ret empty_index;
  secure_filename := fun s => s
|}.

(** The Weaviate cluster does not answer when the client connects. *)
Definition cluster_down : World := {|
  getenv := getenv (services_up scanned_pdf);
  OpenAI := OpenAI (services_up scanned_pdf);
  OpenAIEmbedding := OpenAIEmbedding (services_up scanned_pdf);
  connect_to_wcs := fun _ _ =>
    Raise (Exception "WeaviateStartUpError" "could not connect to Weaviate");
  WeaviateVectorStore := WeaviateVectorStore (services_up scanned_pdf);
  pymupdf_open := pymupdf_open (services_up scanned_pdf);
  TokenTextSplitter := TokenTextSplitter (services_up scanned_pdf);
  StorageContext_from_defaults := StorageContext_from_defaults (services_up scanned_pdf);
  VectorStoreIndex_from_documents :=
    VectorStoreIndex_from_documents (services_up scanned_pdf);
  secure_filename := secure_filename (services_up scanned_pdf)
|}.

(** The cluster accepts the connection and refuses the writes of the index
    construction. *)
Definition indexing_down : World := {|
  getenv := getenv (services_up scanned_pdf);
  OpenAI := OpenAI (services_up scanned_pdf);
  OpenAIEmbedding := OpenAIEmbedding (services_up scanned_pdf);
  connect_to_wcs := connect_to_wcs (services_up scanned_pdf);
  WeaviateVectorStore := WeaviateVectorStore (services_up scanned_pdf);
  pymupdf_open := pymupdf_open (services_up scanned_pdf);
  TokenTextSplitter := TokenTextSplitter (services_up scanned_pdf);
  StorageContext_from_defaults := StorageContext_from_defaults (services_up scanned_pdf);
  VectorStoreIndex_from_documents := fun _ _ _ =>
    Raise (Exception "UnexpectedStatusCodeError" "batch insert refused");
  secure_filename := secure_filename (services_up scanned_pdf)
|}.

Definition upload_of (name : string) : Request :=
  {| files := {["file" := {| fs_filename := name; fs_save := fun _ => Ret tt |}]};
     json := Ret VNone |}.

Definition chat_of (data : value) : Request := {| files := ∅; json := Ret data |}.

(** The session after the scanned PDF went through. *)
Definition scanned_session : option Chatbot :=
  final (upload_file (services_up scanned_pdf) (upload_of "scan.pdf") None).

(** An index whose engine cannot reach the LLM. *)
Definition llm_down_index : Index :=
  {| as_query_engine := fun _ =>
       Ret {| query := fun _ => Raise (Exception "APIConnectionError" "Connection error.") |} |}.

(** A session whose index was built and whose LLM has since become
    unreachable. *)
Definition llm_down_session : Chatbot :=
  {| filename := Some "uploads/paper.pdf";
     llm := Some {| llm_model := "gpt-4-1106-preview"; llm_api_key := None |};
     embeddings := Some {| embed_api_key := None |};
     client := None; vector_store := None;
     index := Some llm_down_index;
     summary := Some "A paper." |}.

(** A session without an index. *)
Definition unindexed_session : Chatbot :=
  {| filename := Some "uploads/paper.pdf";
     llm := Some {| llm_model := "gpt-4-1106-preview"; llm_api_key := None |};
     embeddings := Some {| embed_api_key := None |};
     client := None; vector_store := None;
     index := None;
     summary := Some NO_SUMMARY |}.

(** A PDF of two pages of text. *)
Definition two_page_pdf : PdfDocument :=
  {| pages := [ {| get_text := Ret "Hello " |}; {| get_text := Ret "world." |} ];
     close := Ret tt |}.

(** A PDF that cannot be opened. *)
Definition broken_pdf_world : World := {|
  getenv := getenv (services_up scanned_pdf);
  OpenAI := OpenAI (services_up scanned_pdf);
  OpenAIEmbedding := OpenAIEmbedding (services_up scanned_pdf);
  connect_to_wcs := connect_to_wcs (services_up scanned_pdf);
  WeaviateVectorStore := WeaviateVectorStore (services_up scanned_pdf);
  pymupdf_open := fun _ => Raise (Exception "FileDataError" "cannot open broken document");
  TokenTextSplitter := TokenTextSplitter (services_up scanned_pdf);
  StorageContext_from_defaults := StorageContext_from_defaults (services_up scanned_pdf);
  VectorStoreIndex_from_documents :=
    VectorStoreIndex_from_documents (services_up scanned_pdf);
  secure_filename := secure_filename (services_up scanned_pdf)
|}.

(** An index whose engine answers every query with the same sentence. *)
Definition answering_index : Index :=
  {| as_query_engine := fun _ =>
       Ret {| query := fun _ => Ret {| response_str := Ret "It says hello." |} |} |}.

Definition answering_session : Chatbot :=
  {| filename := Some "uploads/paper.pdf";
     llm := Some {| llm_model := "gpt-4-1106-preview"; llm_api_key := None |};
     embeddings := Some {| embed_api_key := None |};
     client := None; vector_store := None;
     index := Some answering_index;
     summary := Some "It says hello." |}.

(** The index is built, and the LLM is unreachable when the summary is
    asked for. *)
Definition llm_down_world : World := {|
  getenv := getenv (services_up two_page_pdf);
  OpenAI := OpenAI (services_up two_page_pdf);
  OpenAIEmbedding := OpenAIEmbedding (services_up two_page_pdf);
  connect_to_wcs := connect_to_wcs (services_up two_page_pdf);
  WeaviateVectorStore := WeaviateVectorStore (services_up two_page_pdf);
  pymupdf_open := pymupdf_open (services_up two_page_pdf);
  TokenTextSplitter := TokenTextSplitter (services_up two_page_pdf);
  StorageContext_from_defaults := StorageContext_from_defaults (services_up two_page_pdf);
  VectorStoreIndex_from_documents := fun _ _ _ => Ret llm_down_index;
  secure_filename := secure_filename (services_up two_page_pdf)
|}.

(** The session that upload leaves in that case. *)
Definition llm_down_upload : Chatbot :=
  let cl := {| cluster_url := Some "<WEAVIATE_CLUSTER_URL>";
               auth_credentials := {| api_key := Some "<WEAVIATE_API_KEY>" |} |} in
  {| filename := Some "uploads/paper.pdf";
     llm := Some {| llm_model := "gpt-4-1106-preview";
                    llm_api_key := Some "<OPENAI_API_KEY>" |};
     embeddings := Some {| embed_api_key := Some "<OPENAI_API_KEY>" |};
     client := Some cl;
     vector_store := Some {| weaviate_client := Some cl; index_name := "Chatbot" |};
     index := Some llm_down_index;
     summary := Some "Error processing query: Connection error." |}.

(** An upload whose file cannot be written to the upload folder. *)
Definition unsavable_file : FileStorage :=
  {| fs_filename := "paper.pdf";
     fs_save := fun _ => Raise (Exception "PermissionError" "Permission denied") |}.

Definition unsavable_upload : Request :=
  {| files := {["file" := unsavable_file]}; json := Ret VNone |}.

(** A chat request whose body is not JSON. *)
Definition malformed_chat : Request :=
  {| files := ∅;
     json := Raise (Exception "BadRequest" "400 Bad Request: Failed to decode JSON object") |}.


End Scenario.

(** * Properties *)

(** ** Cutting a filename at its last dot *)

Section Rsplit.
Variable c : ascii.

Lemma rsplit_last_none (s : string) :
  PyStr.rsplit_last c s = None <-> PyStr.contains_char c s = false.
Proof.
  induction s as [|a r IH]; simpl; [tauto|].
  destruct (PyStr.rsplit_last c r) as [[pre post]|].
  - destruct (Ascii.eqb a c); split; try discriminate.
    intros H. apply IH in H. discriminate.
  - destruct (Ascii.eqb a c); [split; discriminate | exact IH].
Qed.

Lemma rsplit_last_app (pre post : string) :
  PyStr.contains_char c post = false ->
  PyStr.rsplit_last c (pre +:+ String c post) = Some (pre, post).
Proof.
  intros Hpost. induction pre as [|a p IH]; simpl.
  - apply rsplit_last_none in Hpost. rewrite Hpost, Ascii.eqb_refl. reflexivity.
  - rewrite IH. reflexivity.
Qed.

Lemma rsplit_last_some (s pre post : string) :
  PyStr.rsplit_last c s = Some (pre, post) <->
  s = pre +:+ String c post /\ PyStr.contains_char c post = false.
Proof.
  split.
  - revert pre post. induction s as [|a r IH]; simpl; [discriminate|].
    intros pre post.
    destruct (PyStr.rsplit_last c r) as [[p q]|] eqn:E.
    + intros [= <- <-]. destruct (IH p q eq_refl) as [-> Hq].
      split; [reflexivity | exact Hq].
    + destruct (Ascii.eqb_spec a c) as [->|]; [|discriminate].
      intros [= <- <-]. split; [reflexivity|].
      apply rsplit_last_none. exact E.
  - intros [-> Hpost]. apply rsplit_last_app. exact Hpost.
Qed.

Lemma contains_char_app (pre post : string) :
  PyStr.contains_char c (pre +:+ String c post) = true.
Proof.
  induction pre as [|a p IH]; simpl.
  - rewrite Ascii.eqb_refl. reflexivity.
  - rewrite IH. destruct (Ascii.eqb a c); reflexivity.
Qed.

End Rsplit.

Lemma in_allowed_extensions (ext : string) :
  bool_decide (ext ∈ ALLOWED_EXTENSIONS) = true <-> ext = "pdf".
Proof.
  rewrite bool_decide_eq_true. unfold ALLOWED_EXTENSIONS.
  apply elem_of_singleton.
Qed.

(** [allowed_file] never raises: the subscript is reached only after the dot
    was found. *)
Lemma allowed_file_total (name : string) :
  exists b, allowed_file name = Ret b.
Proof.
  unfold allowed_file, PyStr.rsplit1.
  destruct (PyStr.contains_char "." name) eqn:Hdot; [|eauto].
  destruct (PyStr.rsplit_last "." name) as [[pre post]|] eqn:E; simpl; [eauto|].
  apply rsplit_last_none in E. congruence.
Qed.

(** C9. [allowed_file] answers true exactly for the names that contain a dot
    and whose text after the last dot is "pdf" once lowercased; it answers
    false, without raising, for the others.  ".PDF" and ".PdF" are therefore
    accepted, and the bare name "pdf" is refused. *)
Theorem allowed_file_iff_pdf_after_last_dot :
  (forall name : string,
      allowed_file name = Ret true <->
      PyStr.contains_char "." name = true /\
      exists stem ext : string,
        name = stem +:+ "." +:+ ext /\
        PyStr.contains_char "." ext = false /\
        PyStr.lower ext = "pdf") /\
  (forall name : string,
      allowed_file name = Ret true \/ allowed_file name = Ret false) /\
  allowed_file "REPORT.PDF" = Ret true /\
  allowed_file "notes.v2.PdF" = Ret true /\
  allowed_file "pdf" = Ret false /\
  allowed_file "paper.pdf.exe" = Ret false.
Proof.
  split; [|split; [|repeat split; vm_compute; reflexivity]].
  - intros name. unfold allowed_file, PyStr.rsplit1. split.
    + destruct (PyStr.contains_char "." name) eqn:Hdot; [|discriminate].
      destruct (PyStr.rsplit_last "." name) as [[pre post]|] eqn:E; simpl.
      * intros [= H]. apply in_allowed_extensions in H.
        apply rsplit_last_some in E as [-> Hpost].
        split; [reflexivity|]. exists pre, post. auto.
      * discriminate.
    + intros [_ (stem & ext & -> & Hext & Hlow)].
      change (stem +:+ "." +:+ ext) with (stem +:+ String "." ext).
      rewrite contains_char_app, rsplit_last_app by exact Hext. simpl.
      f_equal. apply in_allowed_extensions. exact Hlow.
  - intros name. destruct (allowed_file_total name) as [[|] ->]; auto.
Qed.

(** ** Laws of the monad *)

Section RunLaws.
Context {S : Type}.

Lemma readonly_ret {A} (a : A) : readonly (S:=S) (ret a).
Proof. intros s. reflexivity. Qed.

Lemma readonly_gets {A} (f : S -> A) : readonly (gets f).
Proof. intros s. reflexivity. Qed.

Lemma readonly_emit (ev : Event) : readonly (S:=S) (emit ev).
Proof. intros s. reflexivity. Qed.

Lemma readonly_print (line : string) : readonly (S:=S) (print line).
Proof. intros s. reflexivity. Qed.

Lemma readonly_call {A} (api : string) (o : outcome A) : readonly (S:=S) (call api o).
Proof. intros s. reflexivity. Qed.

Lemma readonly_lift {A} (o : outcome A) : readonly (S:=S) (lift o).
Proof. intros s. reflexivity. Qed.

Lemma readonly_bind {A B} (m : M S A) (k : A -> M S B) :
  readonly m -> (forall a, readonly (k a)) -> readonly (bind m k).
Proof.
  intros Hm Hk s. unfold bind. specialize (Hm s).
  destruct (m s) as [[a|e] s1 t1]; simpl in Hm; subst s1; [|reflexivity].
  specialize (Hk a s). destruct (k a s) as [o s2 t2]. exact Hk.
Qed.

Lemma readonly_try_except {A} (body : M S A) (handler : exn -> M S A) :
  readonly body -> (forall e, readonly (handler e)) ->
  readonly (try_except body handler).
Proof.
  intros Hb Hh s. unfold try_except. specialize (Hb s).
  destruct (body s) as [[a|e] s1 t1]; simpl in Hb; subst s1; [reflexivity|].
  specialize (Hh e s). destruct (handler e s) as [o s2 t2]. exact Hh.
Qed.

Lemma total_ret {A} (a : A) : total (S:=S) (ret a).
Proof. intros s. exists a. reflexivity. Qed.

Lemma total_gets {A} (f : S -> A) : total (gets f).
Proof. intros s. exists (f s). reflexivity. Qed.

Lemma total_print (line : string) : total (S:=S) (print line).
Proof. intros s. exists tt. reflexivity. Qed.

Lemma total_bind {A B} (m : M S A) (k : A -> M S B) :
  total m -> (forall a, total (k a)) -> total (bind m k).
Proof.
  intros Hm Hk s. unfold bind. destruct (Hm s) as [a Ha].
  destruct (m s) as [[a'|e] s1 t1]; simpl in Ha; [|discriminate].
  destruct (Hk a' s1) as [b Hb]. destruct (k a' s1) as [o s2 t2].
  exists b. exact Hb.
Qed.

(** A [try] whose handler returns always returns. *)
Lemma total_try_except {A} (body : M S A) (handler : exn -> M S A) :
  (forall e, total (handler e)) -> total (try_except body handler).
Proof.
  intros Hh s. unfold try_except.
  destruct (body s) as [[a|e] s1 t1]; [exists a; reflexivity|].
  destruct (Hh e s1) as [b Hb]. destruct (handler e s1) as [o s2 t2].
  exists b. exact Hb.
Qed.

(** The whole run of a computation that returns and changes nothing. *)
Lemma run_total_readonly {A} (m : M S A) (s : S) :
  total m -> readonly m -> exists a t, m s = MkRun (Ret a) s t.
Proof.
  intros Ht Hr. destruct (Ht s) as [a Ha]. specialize (Hr s).
  destruct (m s) as [o s1 t1]. simpl in *. subst. eauto.
Qed.

End RunLaws.

Create HintDb run.
#[export] Hint Resolve readonly_ret readonly_gets readonly_emit readonly_print
  readonly_call readonly_lift readonly_bind readonly_try_except
  total_ret total_gets total_print total_bind total_try_except : run.

(** Goals of the shape [readonly m] and [total m], by the structure of [m]. *)
Ltac run_structure :=
  repeat first
    [ apply readonly_bind | apply readonly_try_except
    | apply total_bind | apply total_try_except
    | apply readonly_ret | apply readonly_gets | apply readonly_emit
    | apply readonly_print | apply readonly_call | apply readonly_lift
    | apply total_ret | apply total_gets | apply total_print
    | intro ].

(** ** The methods of [Chatbot] *)

Lemma read_pages_readonly (ps : list Page) (acc : string) :
  readonly (read_pages ps acc).
Proof.
  revert acc. induction ps as [|p ps IH]; intros acc; simpl.
  - apply readonly_ret.
  - apply readonly_bind; [apply readonly_call | intros t; apply IH].
Qed.

Lemma extract_readonly (w : World) : readonly (_extract_text_from_pdf w).
Proof.
  unfold _extract_text_from_pdf.
  apply readonly_try_except.
  - apply readonly_bind; [apply readonly_gets | intros fn].
    apply readonly_bind; [apply readonly_call | intros doc].
    apply readonly_bind; [apply readonly_emit | intros _].
    apply readonly_bind; [apply read_pages_readonly | intros txt].
    run_structure.
  - run_structure.
Qed.

(** The extractor never raises. *)
Lemma extract_total (w : World) : total (_extract_text_from_pdf w).
Proof.
  unfold _extract_text_from_pdf. apply total_try_except. run_structure.
Qed.

Lemma chunk_readonly (w : World) (txt : string) : readonly (_chunk_text w txt).
Proof. unfold _chunk_text. eauto with run. Qed.

Lemma process_document_readonly (w : World) : readonly (_process_document w).
Proof.
  unfold _process_document. apply readonly_try_except.
  - apply readonly_bind; [apply extract_readonly | intros txt].
    apply readonly_bind; [apply chunk_readonly | intros chunks].
    run_structure.
  - run_structure.
Qed.

Lemma process_document_total (w : World) : total (_process_document w).
Proof.
  unfold _process_document. apply total_try_except. run_structure.
Qed.

Lemma ask_query_readonly (q : value) : readonly (ask_query q).
Proof.
  unfold ask_query. apply readonly_bind; [apply readonly_gets|].
  intros [idx|]; run_structure.
Qed.

(** [ask_query] never raises. *)
Lemma ask_query_total (q : value) : total (ask_query q).
Proof.
  unfold ask_query. apply total_bind; [apply total_gets|].
  intros [idx|]; run_structure.
Qed.

Lemma get_initial_summary_readonly : readonly get_initial_summary.
Proof.
  unfold get_initial_summary. apply readonly_bind; [apply readonly_gets|].
  intros [idx|]; [apply ask_query_readonly | apply readonly_ret].
Qed.

Lemma get_initial_summary_total : total get_initial_summary.
Proof.
  unfold get_initial_summary. apply total_bind; [apply total_gets|].
  intros [idx|]; [apply ask_query_total | apply total_ret].
Qed.

(** ** Queries *)

Lemma string_app_empty_r (s : string) : s +:+ "" = s.
Proof.
  induction s as [|a s IH]; [reflexivity|].
  change (String a s +:+ "") with (String a (s +:+ "")).
  f_equal. exact IH.
Qed.

Lemma dict_with_key_truthy (d : gmap string value) (k : string) (v : value) :
  d !! k = Some v -> Py.truthy (VDict d) = true.
Proof.
  intros H. simpl. rewrite bool_decide_eq_false_2; [reflexivity|].
  intros Hsize. apply map_size_empty_iff in Hsize. subst d.
  rewrite lookup_empty in H. discriminate.
Qed.

(** What [chat] answers to a dict body that has the key "message", on a
    session [c]: the answer of [ask_query], under the key "response". *)
Lemma chat_forwards (request : Request) (d : gmap string value) (q : value)
  (c : Chatbot) :
  json request = Ret (VDict d) -> d !! "message" = Some q ->
  chat request (Some c) =
  MkRun (match result (ask_query q c) with
         | Ret answer => Ret (jsonify {["response" := VStr answer]})
         | Raise e => Raise e
         end)
        (Some (final (ask_query q c)))
        (trace (ask_query q c)).
Proof.
  intros Hjson Hq. unfold chat, bind, gets, lift, on_chatbot.
  rewrite Hjson. cbn -[ask_query Py.truthy].
  rewrite (dict_with_key_truthy d "message" q Hq).
  cbn -[ask_query]. rewrite Hq. cbn -[ask_query].
  destruct (ask_query q c) as [[answer|e] c' t]; cbn;
    rewrite ?app_nil_r; reflexivity.
Qed.

Lemma ask_query_no_index (c : Chatbot) (q : value) :
  index c = None -> ask_query q c = MkRun (Ret NOT_PROCESSED) c [].
Proof.
  intros Hidx. unfold ask_query, bind, gets. simpl. rewrite Hidx. reflexivity.
Qed.

(** C2. On a session without an index, [ask_query] returns the fixed
    sentence for every query: it makes no library call (no retrieval is
    attempted), it raises nothing, and the session is still there,
    unchanged; [chat] hands that sentence back with status 200. *)
Theorem ask_query_without_index (c : Chatbot) :
  index c = None ->
  (forall q : value, ask_query q c = MkRun (Ret NOT_PROCESSED) c []) /\
  (forall (request : Request) (d : gmap string value) (q : value),
      json request = Ret (VDict d) -> d !! "message" = Some q ->
      chat request (Some c) =
      MkRun (Ret (jsonify {["response" := VStr NOT_PROCESSED]})) (Some c) []).
Proof.
  intros Hidx.
  split; [intros q; apply ask_query_no_index; exact Hidx|].
  intros request d q Hjson Hq.
  rewrite (chat_forwards request d q c Hjson Hq), (ask_query_no_index c q Hidx).
  reflexivity.
Qed.

Lemma ask_query_without_index_witness :
  index Scenario.unindexed_session = None /\
  ask_query (VStr "What does the document say?") Scenario.unindexed_session =
  MkRun (Ret NOT_PROCESSED) Scenario.unindexed_session [].
Proof.
  split; [reflexivity|].
  apply (ask_query_without_index Scenario.unindexed_session); reflexivity.
Defined.

(** C8. On a session with an index, when query processing raises (the
    engine cannot be built, the retrieval or LLM call fails, or the response
    cannot be rendered), [ask_query] returns "Error processing query: "
    followed by the text of the exception; nothing is raised and the session
    is unchanged. *)
Theorem ask_query_reports_downstream_failure
  (c : Chatbot) (idx : Index) (q : value) (e : exn) :
  index c = Some idx ->
  (as_query_engine idx (llm c) = Raise e \/
   exists engine, as_query_engine idx (llm c) = Ret engine /\
     (query engine q = Raise e \/
      exists response, query engine q = Ret response /\
                       response_str response = Raise e)) ->
  result (ask_query q c) = Ret ("Error processing query: " +:+ exn_str e) /\
  embeds (exn_str e) ("Error processing query: " +:+ exn_str e) /\
  final (ask_query q c) = c.
Proof.
  intros Hidx Hfail. split; [|split].
  - unfold ask_query, bind, gets, try_except, call, ret. simpl. rewrite Hidx. simpl.
    destruct Hfail as [H|(engine & H & [Hq|(response & Hq & Hs)])];
      rewrite H; simpl; try (rewrite Hq; simpl); try (rewrite Hs; simpl);
      reflexivity.
  - exists "Error processing query: ", "".
    rewrite string_app_empty_r. reflexivity.
  - apply ask_query_readonly.
Qed.

Lemma ask_query_reports_downstream_failure_witness :
  result (ask_query (VStr "Who wrote it?") Scenario.llm_down_session) =
  Ret "Error processing query: Connection error.".
Proof.
  apply (ask_query_reports_downstream_failure
           Scenario.llm_down_session Scenario.llm_down_index
           (VStr "Who wrote it?")
           (Exception "APIConnectionError" "Connection error.")).
  - reflexivity.
  - right. eexists. split; [reflexivity|]. left. reflexivity.
Defined.

(** ** Text extraction *)

Lemma string_app_assoc (a b c : string) : (a +:+ b) +:+ c = a +:+ (b +:+ c).
Proof.
  induction a as [|x a IH]; [reflexivity|].
  change (String x ((a +:+ b) +:+ c) = String x (a +:+ (b +:+ c))).
  f_equal. exact IH.
Qed.

Lemma open_handles_app (t1 t2 : list Event) (n : nat) :
  open_handles (t1 ++ t2) n = open_handles t2 (open_handles t1 n).
Proof.
  revert n. induction t1 as [|ev t1 IH]; intros n; [reflexivity|].
  destruct ev; simpl; apply IH.
Qed.

(** Reading the pages: the text read so far grows by the text of the pages,
    or the first failing page raises; the object is untouched, and no
    document is opened or closed on the way. *)
Lemma read_pages_run (ps : list Page) (acc : string) (c : Chatbot) :
  exists t,
    read_pages ps acc c =
    MkRun (match page_texts ps with
           | Ret txt => Ret (acc +:+ txt)
           | Raise e => Raise e
           end) c t /\
    forall n, open_handles t n = n.
Proof.
  revert acc. induction ps as [|p ps IH]; intros acc; simpl.
  - exists []. rewrite string_app_empty_r. split; reflexivity.
  - unfold bind, call. destruct (get_text p) as [txt|e].
    + destruct (IH (acc +:+ txt)) as (t & -> & Ht).
      exists (Called "page.get_text" :: t). split.
      * destruct (page_texts ps); [rewrite string_app_assoc|]; reflexivity.
      * intros n. simpl. apply Ht.
    + exists [Called "page.get_text"]. split; reflexivity.
Qed.

(** What the extractor returns, and how many documents it leaves open: the
    full text and none when the document opens, every page is read and the
    document closes; the empty string otherwise, with the document left open
    when the failure came after it was opened. *)
Lemma extract_spec (w : World) (c : Chatbot) :
  let r := _extract_text_from_pdf w c in
  match pymupdf_open w (filename c) with
  | Raise _ => result r = Ret "" /\ open_handles (trace r) 0 = 0
  | Ret document =>
      match page_texts (pages document), close document with
      | Ret t, Ret _ => result r = Ret t /\ open_handles (trace r) 0 = 0
      | _, _ => result r = Ret "" /\ open_handles (trace r) 0 = 1
      end
  end.
Proof.
  unfold _extract_text_from_pdf, try_except, bind, gets, call, emit, print, emit, ret.
  destruct (pymupdf_open w (filename c)) as [doc|e]; [|split; reflexivity].
  destruct (read_pages_run (pages doc) "" c) as (t & -> & Ht).
  destruct (page_texts (pages doc)) as [txt|e].
  - destruct (close doc) as [[]|e]; cbn; split; try reflexivity;
      rewrite !open_handles_app, Ht; reflexivity.
  - cbn. split; [reflexivity|]. rewrite open_handles_app, Ht. reflexivity.
Qed.

(** Whatever fails, the extractor's answer is then the empty string. *)
Lemma extract_failure_returns_empty (w : World) (c : Chatbot) (e : exn) :
  (pymupdf_open w (filename c) = Raise e \/
   exists document, pymupdf_open w (filename c) = Ret document /\
     (page_texts (pages document) = Raise e \/ close document = Raise e)) ->
  result (_extract_text_from_pdf w c) = Ret "".
Proof.
  intros H. pose proof (extract_spec w c) as S. simpl in S.
  destruct H as [H|(doc & H & [Hp|Hc])]; rewrite H in S.
  - apply S.
  - rewrite Hp in S. apply S.
  - rewrite Hc in S. destruct (page_texts (pages doc)); apply S.
Qed.

(** C3. A PDF that opens and whose second page cannot be decoded: the
    extractor returns the empty string and prints the error, and the
    document it opened is still open when it returns, since
    [document.close()] is only on the path where every page was read. *)
Theorem extract_page_failure_leaves_document_open :
  let r := _extract_text_from_pdf (Scenario.services_up Scenario.damaged_pdf)
             Scenario.unindexed_session in
  result r = Ret "" /\
  trace r = [Called "pymupdf.open"; Opened;
             Called "page.get_text"; Called "page.get_text";
             Printed "Error extracting text from PDF: cannot decode page"] /\
  open_handles (trace r) 0 = 1.
Proof. vm_compute. repeat split. Qed.

(** ** Index construction *)

(** [_process_document] hands back an index only when every step of its
    [try] block returned. *)
Lemma process_document_some (w : World) (c : Chatbot) (idx : Index) :
  result (_process_document w c) = Ret (Some idx) ->
  exists txt splitter chunks ctx,
    result (_extract_text_from_pdf w c) = Ret txt /\
    TokenTextSplitter w 512 20 = Ret splitter /\
    split_text splitter txt = Ret chunks /\
    StorageContext_from_defaults w (vector_store c) = Ret ctx /\
    VectorStoreIndex_from_documents w
      (map (fun chunk => {| text := chunk |}) chunks) ctx (embeddings c) = Ret idx.
Proof.
  destruct (run_total_readonly (_extract_text_from_pdf w) c
              (extract_total w) (extract_readonly w)) as (txt & t & Hrun).
  unfold _process_document, try_except, bind, _chunk_text, bind, call, gets, print,
    emit, ret.
  rewrite Hrun.
  destruct (TokenTextSplitter w 512 20) as [sp|e]; cbn; [|discriminate].
  destruct (split_text sp txt) as [chunks|e] eqn:Hsplit; cbn; [|discriminate].
  destruct (StorageContext_from_defaults w (vector_store c)) as [ctx|e] eqn:Hctx;
    cbn; [|discriminate].
  destruct (VectorStoreIndex_from_documents w _ ctx (embeddings c)) as [i|e] eqn:Hidx;
    cbn; [|discriminate].
  intros [= <-]. exists txt, sp, chunks, ctx. auto.
Qed.

(** ** Session set-up *)

(** Unfolds the monad one layer, leaving the methods folded. *)
Ltac run_step :=
  unfold bind, modify, call, gets, lift, ret, emit, on_chatbot;
  cbn -[_process_document get_initial_summary ask_query allowed_file
        _initialize_with_file Py.path_join].

(** Without an index the summary is the fixed sentence. *)
Lemma get_initial_summary_without_index (c : Chatbot) :
  index c = None -> get_initial_summary c = MkRun (Ret NO_SUMMARY) c [].
Proof.
  intros H. unfold get_initial_summary, bind, gets. rewrite H. reflexivity.
Qed.

(** The index of a session changes only when [_process_document] has
    returned; from then on nothing raises, and the summary is assigned:
    the fixed sentence when there is no index. *)
Lemma initialize_outcome (w : World) (path : string) (c : Chatbot) :
  let r := _initialize_with_file w path c in
  match result r with
  | Ret _ =>
      exists c' s,
        result (_process_document w c') = Ret (index (final r)) /\
        (index (final r) = None -> s = NO_SUMMARY) /\
        summary (final r) = Some s
  | Raise _ => index (final r) = index c /\ summary (final r) = summary c
  end.
Proof.
  unfold _initialize_with_file, _connect_to_weaviate, _create_vector_store.
  run_step.
  destruct (OpenAI w _ _) as [l|e]; run_step; [|auto].
  destruct (OpenAIEmbedding w _) as [em|e]; run_step; [|auto].
  destruct (connect_to_wcs w _ _) as [cl|e]; run_step; [|auto].
  destruct (WeaviateVectorStore w _ _) as [vs|e]; run_step; [|auto].
  set (c4 := set_vector_store _ _).
  destruct (run_total_readonly (_process_document w) c4
              (process_document_total w) (process_document_readonly w))
    as (i & t & Hp).
  rewrite Hp. run_step.
  set (c5 := set_index i c4).
  destruct (run_total_readonly get_initial_summary c5
              get_initial_summary_total get_initial_summary_readonly)
    as (s & t' & Hs).
  rewrite Hs. run_step.
  exists c4, s. rewrite Hp. repeat split.
  intros Hi. rewrite (get_initial_summary_without_index c5 Hi) in Hs.
  congruence.
Qed.

(** ** The upload handler *)

Lemma allowed_file_nonempty (name : string) :
  allowed_file name = Ret true -> String.eqb name "" = false.
Proof. destruct name; [discriminate | reflexivity]. Qed.

(** An accepted upload: the file is saved, the module variable is rebound to
    a fresh [Chatbot], and that object is initialised in place.  The answer
    is the summary when the initialisation returns; when it raises, so does
    the handler, and the variable keeps the object as far as it got. *)
Lemma upload_stored (w : World) (request : Request) (path : string)
  (g : option Chatbot) :
  stored_upload w request path ->
  upload_file w request g =
  let r := _initialize_with_file w path Chatbot_init in
  MkRun (match result r with
         | Ret _ => Ret (jsonify (<["message" := VStr "File uploaded successfully"]>
                                    {["summary" := opt_str (summary (final r))]}))
         | Raise e => Raise e
         end)
        (Some (final r))
        ([Called "file.save"; Saved path] ++ trace r).
Proof.
  intros (file & Hfile & Hok & -> & Hsave).
  unfold upload_file, fs_truthy. rewrite Hfile, (allowed_file_nonempty _ Hok).
  run_step. rewrite Hok. run_step. rewrite Hsave. run_step.
  destruct (_initialize_with_file w _ Chatbot_init) as [[[]|e] c' t]; cbn;
    rewrite ?app_nil_r; reflexivity.
Qed.

(** A refused upload changes nothing and answers 400. *)
Lemma upload_refused (w : World) (request : Request) (g : option Chatbot)
  (file : FileStorage) :
  files request !! "file" = Some file ->
  allowed_file (fs_filename file) = Ret false ->
  exists err,
    upload_file w request g =
    MkRun (Ret (jsonify_with {["error" := VStr err]} 400)) g [].
Proof.
  intros Hfile Hno. unfold upload_file, fs_truthy. rewrite Hfile.
  destruct (String.eqb (fs_filename file) ""); run_step; [eauto|].
  rewrite Hno. run_step. eauto.
Qed.

(** The handler answers 200 only on the path that rebinds the module
    variable and runs the initialisation to its end. *)
Lemma upload_200 (w : World) (request : Request) (g : option Chatbot)
  (resp : HttpResponse) :
  result (upload_file w request g) = Ret resp -> status_code resp = 200 ->
  exists path,
    let r := _initialize_with_file w path Chatbot_init in
    result r = Ret tt /\
    final (upload_file w request g) = Some (final r) /\
    resp = jsonify (<["message" := VStr "File uploaded successfully"]>
                      {["summary" := opt_str (summary (final r))]}).
Proof.
  unfold upload_file, fs_truthy.
  destruct (files request !! "file") as [file|]; run_step;
    [|intros [= <-]; discriminate].
  destruct (String.eqb (fs_filename file) ""); run_step;
    [intros [= <-]; discriminate|].
  destruct (allowed_file (fs_filename file)) as [[|]|e]; run_step;
    [|intros [= <-]; discriminate|discriminate].
  destruct (fs_save file _) as [[]|e]; run_step; [|discriminate].
  set (path := Py.path_join _ _).
  destruct (_initialize_with_file w path Chatbot_init) as [[[]|e] c' t] eqn:Hinit;
    run_step; [|discriminate].
  intros [= <-] _. exists path. rewrite Hinit. cbn. auto.
Qed.

(** C6. An upload whose file name [allowed_file] refuses is answered 400;
    the module variable holds what it held before the request, and nothing
    was saved or called. *)
Theorem upload_disallowed_extension_rejected
  (w : World) (request : Request) (g : option Chatbot) (file : FileStorage) :
  files request !! "file" = Some file ->
  allowed_file (fs_filename file) = Ret false ->
  (exists resp, result (upload_file w request g) = Ret resp /\
                status_code resp = 400) /\
  final (upload_file w request g) = g /\
  trace (upload_file w request g) = [].
Proof.
  intros Hfile Hno.
  destruct (upload_refused w request g file Hfile Hno) as [err ->].
  simpl. eauto.
Qed.

Lemma upload_disallowed_extension_rejected_witness :
  final (upload_file (Scenario.services_up Scenario.scanned_pdf)
           (Scenario.upload_of "paper.pdf.exe") Scenario.scanned_session)
  = Scenario.scanned_session.
Proof.
  apply (upload_disallowed_extension_rejected
           (Scenario.services_up Scenario.scanned_pdf)
           (Scenario.upload_of "paper.pdf.exe") Scenario.scanned_session
           {| fs_filename := "paper.pdf.exe"; fs_save := fun _ => Ret tt |}).
  - vm_compute. reflexivity.
  - vm_compute. reflexivity.
Defined.

(** When the vector-store connection raises, after the two OpenAI objects
    were built, the exception leaves [_initialize_with_file] and the handler:
    no [try] stands around [_connect_to_weaviate]. *)
Lemma upload_connection_failure_escapes
  (w : World) (request : Request) (path : string) (g : option Chatbot)
  (l : LLM) (em : Embedding) (e : exn) :
  stored_upload w request path ->
  OpenAI w "gpt-4-1106-preview" (getenv w "OPENAI_API_KEY") = Ret l ->
  OpenAIEmbedding w (getenv w "OPENAI_API_KEY") = Ret em ->
  connect_to_wcs w (getenv w "WEAVIATE_CLUSTER_URL")
    {| api_key := getenv w "WEAVIATE_API_KEY" |} = Raise e ->
  result (upload_file w request g) = Raise e /\
  final (upload_file w request g) =
  Some (set_embeddings (Some em)
          (set_llm (Some l) (set_filename (Some path) Chatbot_init))).
Proof.
  intros Hup Hl Hem Hconn. rewrite (upload_stored w request path g Hup).
  unfold _initialize_with_file, _connect_to_weaviate. run_step.
  rewrite Hl. run_step. rewrite Hem. run_step. rewrite Hconn. run_step.
  split; reflexivity.
Qed.

(** Once the session set-up has returned, nothing that fails afterwards
    reaches the handler: the upload is answered 200 with a summary string. *)
Lemma upload_answers_200_after_setup
  (w : World) (request : Request) (path : string) (g : option Chatbot)
  (l : LLM) (em : Embedding) (cl : Client) (vs : VectorStore) :
  stored_upload w request path ->
  OpenAI w "gpt-4-1106-preview" (getenv w "OPENAI_API_KEY") = Ret l ->
  OpenAIEmbedding w (getenv w "OPENAI_API_KEY") = Ret em ->
  connect_to_wcs w (getenv w "WEAVIATE_CLUSTER_URL")
    {| api_key := getenv w "WEAVIATE_API_KEY" |} = Ret cl ->
  WeaviateVectorStore w (Some cl) "Chatbot" = Ret vs ->
  exists s,
    result (upload_file w request g) =
    Ret (jsonify (<["message" := VStr "File uploaded successfully"]>
                    {["summary" := VStr s]})).
Proof.
  intros Hup Hl Hem Hcl Hvs. rewrite (upload_stored w request path g Hup).
  pose proof (initialize_outcome w path Chatbot_init) as Hout.
  cbv zeta in Hout |- *.
  assert (Hret : result (_initialize_with_file w path Chatbot_init) = Ret tt).
  { clear Hout.
    unfold _initialize_with_file, _connect_to_weaviate, _create_vector_store.
    run_step. rewrite Hl. run_step. rewrite Hem. run_step. rewrite Hcl. run_step.
    rewrite Hvs. run_step.
    set (c4 := set_vector_store _ _).
    destruct (run_total_readonly (_process_document w) c4
                (process_document_total w) (process_document_readonly w))
      as (i & t & Hp).
    rewrite Hp. run_step.
    set (c5 := set_index i c4).
    destruct (run_total_readonly get_initial_summary c5
                get_initial_summary_total get_initial_summary_readonly)
      as (s & t' & Hs).
    rewrite Hs. reflexivity. }
  rewrite Hret in Hout |- *. destruct Hout as (c' & s & _ & _ & Hs).
  exists s. cbn [result]. rewrite Hs. reflexivity.
Qed.

(** C1. The Weaviate cluster is down when "paper.pdf" is uploaded: the
    request passes validation and the file is saved, then the connection
    error leaves the handler as an exception instead of a 200 answer.  The
    module variable is left holding the object as far as it was built: no
    index, no summary, which [status] reports as an initialised session with
    a null summary. *)
Theorem upload_escapes_when_cluster_down :
  let r := upload_file Scenario.cluster_down (Scenario.upload_of "paper.pdf")
             chatbot_at_start in
  allowed_file "paper.pdf" = Ret true /\
  result r = Raise (Exception "WeaviateStartUpError" "could not connect to Weaviate") /\
  trace r = [Called "file.save"; Saved "uploads/paper.pdf"; Called "OpenAI";
             Called "OpenAIEmbedding"; Called "weaviate.connect_to_wcs"] /\
  (exists c, final r = Some c /\ index c = None /\ summary c = None) /\
  result (status (final r)) =
  Ret (jsonify (<["initialized" := VBool true]> {["summary" := VNone]})).
Proof.
  vm_compute. repeat split. eexists. repeat split.
Qed.

(** C10, amended. After an upload that was answered 200 and left the session
    without an index, the session exists and its summary is the fixed sentence
    "Failed to process document. No summary available."; the upload answer
    carries that sentence, and [status] reports [initialized: true] with it
    as the summary. *)
Theorem failed_upload_reports_fixed_summary
  (w : World) (request : Request) (g : option Chatbot) (resp : HttpResponse) :
  result (upload_file w request g) = Ret resp ->
  status_code resp = 200 ->
  exists c,
    final (upload_file w request g) = Some c /\
    (index c = None ->
     summary c = Some NO_SUMMARY /\
     resp = jsonify (<["message" := VStr "File uploaded successfully"]>
                       {["summary" := VStr NO_SUMMARY]}) /\
     status (Some c) =
     MkRun (Ret (jsonify (<["initialized" := VBool true]>
                            {["summary" := VStr NO_SUMMARY]})))
           (Some c) []).
Proof.
  intros Hres Hcode.
  destruct (upload_200 w request g resp Hres Hcode) as (path & Hinit & Hfinal & ->).
  pose proof (initialize_outcome w path Chatbot_init) as Hout.
  cbv zeta in Hout. rewrite Hinit in Hout. destruct Hout as (c' & s & _ & Hsum & Hs).
  exists (final (_initialize_with_file w path Chatbot_init)).
  split; [exact Hfinal|]. intros Hidx.
  rewrite (Hsum Hidx) in Hs.
  split; [exact Hs|]. split.
  - rewrite Hs. reflexivity.
  - unfold status, bind, gets, ret. simpl. rewrite Hs. reflexivity.
Qed.

Lemma failed_upload_reports_fixed_summary_witness :
  exists c,
    final (upload_file Scenario.indexing_down (Scenario.upload_of "paper.pdf")
             chatbot_at_start) = Some c /\
    index c = None /\
    summary c = Some NO_SUMMARY /\
    status (Some c) =
    MkRun (Ret (jsonify (<["initialized" := VBool true]>
                           {["summary" := VStr NO_SUMMARY]})))
          (Some c) [].
Proof.
  destruct (failed_upload_reports_fixed_summary Scenario.indexing_down
              (Scenario.upload_of "paper.pdf") chatbot_at_start
              (jsonify (<["message" := VStr "File uploaded successfully"]>
                          {["summary" := VStr NO_SUMMARY]})))
    as (c & Hfinal & Hfixed).
  - vm_compute. reflexivity.
  - reflexivity.
  - exists c. split; [exact Hfinal|].
    assert (Hidx : index c = None).
    { vm_compute in Hfinal. injection Hfinal as <-. reflexivity. }
    split; [exact Hidx|].
    destruct (Hfixed Hidx) as (Hsum & _ & Hstatus). split; assumption.
Defined.

(** C10, the claim as stated fails: when the vector-store connection raises
    during an accepted and stored upload, the session is left without an
    index and without a summary; [status] then reports an initialised
    session whose summary is null, not the fixed sentence. *)
Lemma setup_failure_leaves_null_summary :
  let r := upload_file Scenario.cluster_down (Scenario.upload_of "paper.pdf")
             chatbot_at_start in
  stored_upload Scenario.cluster_down (Scenario.upload_of "paper.pdf")
    "uploads/paper.pdf" /\
  exists c,
    final r = Some c /\
    index c = None /\
    summary c = None /\
    summary c <> Some NO_SUMMARY /\
    result (status (final r)) =
    Ret (jsonify (<["initialized" := VBool true]> {["summary" := VNone]})).
Proof.
  cbv zeta. split.
  - eexists. repeat split; vm_compute; reflexivity.
  - eexists. split; [vm_compute; reflexivity|].
    split; [reflexivity|]. split; [reflexivity|]. split; [discriminate|].
    vm_compute. reflexivity.
Qed.


(** ** The chat handler *)

(** A body that is falsy, or that does not contain "message", is refused
    before the session is touched. *)
Lemma chat_refused (request : Request) (data : value) (c : Chatbot) :
  json request = Ret data ->
  Py.truthy data = false \/ Py.contains "message" data = Ret false ->
  chat request (Some c) =
  MkRun (Ret (jsonify_with {["error" := VStr "No message provided"]} 400)) (Some c) [].
Proof.
  intros Hjson H. unfold chat, bind, gets, lift, ret. rewrite Hjson.
  cbn -[Py.truthy Py.contains].
  destruct (Py.truthy data); cbn -[Py.contains].
  - destruct H as [H|H]; [discriminate|]. rewrite H. reflexivity.
  - reflexivity.
Qed.

(** C5, the claim as stated fails: a body whose message is the empty string
    is not refused; it is passed to [ask_query] and answered 200. *)
Lemma chat_accepts_empty_message :
  let request := Scenario.chat_of (VDict {["message" := VStr ""]}) in
  let r := chat request Scenario.scanned_session in
  Scenario.scanned_session <> None /\
  json request = Ret (VDict {["message" := VStr ""]}) /\
  Py.getitem (VDict {["message" := VStr ""]}) "message" = Ret (VStr "") /\
  result r = Ret (jsonify {["response" := VStr "Empty Response"]}) /\
  (forall resp, result r = Ret resp -> status_code resp <> 400).
Proof.
  cbv zeta. split; [vm_compute; discriminate|].
  split; [reflexivity|].
  split; [vm_compute; reflexivity|].
  assert (H : result (chat (Scenario.chat_of (VDict {["message" := VStr ""]}))
                        Scenario.scanned_session) =
              Ret (jsonify {["response" := VStr "Empty Response"]})).
  { vm_compute. reflexivity. }
  split; [exact H|].
  intros resp Hresp. rewrite H in Hresp. injection Hresp as <-.
  unfold jsonify. cbn [status_code]. discriminate.
Qed.

(** C5, amended. Against an existing session, a body that is empty (falsy)
    or a dict without the key "message" is answered 400 and the session is
    not touched; a dict that has the key "message", whatever its value, the
    empty string included, is passed to [ask_query], whose answer comes back
    verbatim under "response" with status 200. *)
Theorem chat_requires_message_key (request : Request) (c : Chatbot) :
  (forall data : value,
      json request = Ret data -> Py.truthy data = false ->
      chat request (Some c) =
      MkRun (Ret (jsonify_with {["error" := VStr "No message provided"]} 400))
            (Some c) []) /\
  (forall d : gmap string value,
      json request = Ret (VDict d) -> d !! "message" = None ->
      chat request (Some c) =
      MkRun (Ret (jsonify_with {["error" := VStr "No message provided"]} 400))
            (Some c) []) /\
  (forall (d : gmap string value) (q : value),
      json request = Ret (VDict d) -> d !! "message" = Some q ->
      exists answer,
        result (ask_query q c) = Ret answer /\
        chat request (Some c) =
        MkRun (Ret {| body := VDict {["response" := VStr answer]};
                      status_code := 200 |})
              (Some c) (trace (ask_query q c))).
Proof.
  split; [|split].
  - intros data Hjson H. apply (chat_refused request data c Hjson). left. exact H.
  - intros d Hjson Hnone. apply (chat_refused request (VDict d) c Hjson). right.
    simpl. rewrite Hnone. reflexivity.
  - intros d q Hjson Hq. destruct (ask_query_total q c) as [answer Hans].
    exists answer. split; [exact Hans|].
    rewrite (chat_forwards request d q c Hjson Hq), Hans, (ask_query_readonly q c).
    reflexivity.
Qed.

Lemma chat_requires_message_key_witness :
  chat (Scenario.chat_of (VDict ∅)) (Some Scenario.llm_down_session) =
  MkRun (Ret (jsonify_with {["error" := VStr "No message provided"]} 400))
        (Some Scenario.llm_down_session) [] /\
  exists answer,
    result (ask_query (VStr "Who wrote it?") Scenario.llm_down_session) = Ret answer /\
    chat (Scenario.chat_of (VDict {["message" := VStr "Who wrote it?"]}))
      (Some Scenario.llm_down_session) =
    MkRun (Ret {| body := VDict {["response" := VStr answer]}; status_code := 200 |})
          (Some Scenario.llm_down_session)
          (trace (ask_query (VStr "Who wrote it?") Scenario.llm_down_session)).
Proof.
  split.
  - destruct (chat_requires_message_key (Scenario.chat_of (VDict ∅))
                Scenario.llm_down_session) as (Hfalsy & _ & _).
    apply (Hfalsy (VDict ∅)); reflexivity.
  - destruct (chat_requires_message_key
                (Scenario.chat_of (VDict {["message" := VStr "Who wrote it?"]}))
                Scenario.llm_down_session) as (_ & _ & Hforward).
    apply (Hforward {["message" := VStr "Who wrote it?"]}); reflexivity.
Defined.

(** ** Before the first upload *)

Lemma chat_none (request : Request) :
  chat request None =
  MkRun (Ret (jsonify_with {["error" := VStr "Please upload a document first"]} 400))
        None [].
Proof. reflexivity. Qed.

(** Neither [chat] nor [status] binds the module variable. *)
Lemma no_upload_no_session (history : list Call) :
  forallb (fun call => negb (is_upload call)) history = true ->
  after history chatbot_at_start = None.
Proof.
  unfold chatbot_at_start. induction history as [|call rest IH]; [reflexivity|].
  cbn [forallb]. intros H. apply andb_prop in H as [Hcall Hrest].
  destruct call as [w request|request|]; [discriminate| |]; cbn [after handle].
  - rewrite chat_none. apply IH. exact Hrest.
  - apply IH. exact Hrest.
Qed.

(** C7. As long as no upload request has been made, the module variable is
    [None] and [chat] answers 400 "Please upload a document first", whatever
    the body of the request is; the body is not even read. *)
Theorem chat_before_any_upload (history : list Call) (request : Request) :
  forallb (fun call => negb (is_upload call)) history = true ->
  chat request (after history chatbot_at_start) =
  MkRun (Ret (jsonify_with {["error" := VStr "Please upload a document first"]} 400))
        None [].
Proof.
  intros H. rewrite (no_upload_no_session history H). apply chat_none.
Qed.

Lemma chat_before_any_upload_witness :
  chat (Scenario.chat_of (VDict {["message" := VStr "What does the document say?"]}))
    (after [Status; Chat (Scenario.chat_of VNone)] chatbot_at_start) =
  MkRun (Ret (jsonify_with {["error" := VStr "Please upload a document first"]} 400))
        None [].
Proof.
  apply (chat_before_any_upload [Status; Chat (Scenario.chat_of VNone)]).
  reflexivity.
Defined.

(** A body that is a list containing "message" passes the membership test
    and then cannot be subscripted by a string: the handler raises. *)
Example chat_list_body_raises :
  result (chat (Scenario.chat_of (VList [VStr "message"]))
            (Some Scenario.unindexed_session)) =
  Raise (TypeError "list indices must be integers or slices, not str").
Proof. vm_compute. reflexivity. Qed.

(** * Further properties *)

(** ** The extension filter, continued *)

Lemma lower_char_dot (a : ascii) :
  Ascii.eqb (PyStr.lower_char a) "." = Ascii.eqb a ".".
Proof.
  destruct a as [[] [] [] [] [] [] [] []]; vm_compute; reflexivity.
Qed.

Lemma lower_char_idem (a : ascii) :
  PyStr.lower_char (PyStr.lower_char a) = PyStr.lower_char a.
Proof.
  destruct a as [[] [] [] [] [] [] [] []]; vm_compute; reflexivity.
Qed.

Lemma lower_idem (s : string) : PyStr.lower (PyStr.lower s) = PyStr.lower s.
Proof.
  induction s as [|a s IH]; [reflexivity|].
  simpl. rewrite lower_char_idem, IH. reflexivity.
Qed.

Lemma contains_dot_lower (s : string) :
  PyStr.contains_char "." (PyStr.lower s) = PyStr.contains_char "." s.
Proof.
  induction s as [|a s IH]; [reflexivity|].
  simpl. rewrite lower_char_dot, IH. reflexivity.
Qed.

Lemma rsplit_last_lower (s : string) :
  PyStr.rsplit_last "." (PyStr.lower s) =
  match PyStr.rsplit_last "." s with
  | Some (pre, post) => Some (PyStr.lower pre, PyStr.lower post)
  | None => None
  end.
Proof.
  induction s as [|a s IH]; [reflexivity|].
  simpl. rewrite IH, lower_char_dot.
  destruct (PyStr.rsplit_last "." s) as [[pre post]|]; [reflexivity|].
  destruct (Ascii.eqb a "."); reflexivity.
Qed.

(** X1. The filter does not look at the case of the name: a name and its
    lowercased form get the same answer. *)
Theorem allowed_file_case_insensitive (name : string) :
  allowed_file (PyStr.lower name) = allowed_file name.
Proof.
  unfold allowed_file, PyStr.rsplit1.
  rewrite contains_dot_lower, rsplit_last_lower.
  destruct (PyStr.contains_char "." name); [|reflexivity].
  destruct (PyStr.rsplit_last "." name) as [[pre post]|]; simpl; [|reflexivity].
  rewrite lower_idem. reflexivity.
Qed.

Lemma rsplit_last_prefix (c : ascii) (front s pre post : string) :
  PyStr.rsplit_last c s = Some (pre, post) ->
  PyStr.rsplit_last c (front +:+ s) = Some (front +:+ pre, post).
Proof.
  intros H. apply rsplit_last_some in H as [-> Hpost].
  rewrite <- string_app_assoc. apply rsplit_last_app. exact Hpost.
Qed.

(** X2. Only what follows the last dot counts: whatever is put in front of
    a name that has a dot, the answer is the same. *)
Theorem allowed_file_ignores_what_precedes (front name : string) :
  PyStr.contains_char "." name = true ->
  allowed_file (front +:+ name) = allowed_file name.
Proof.
  intros Hdot. unfold allowed_file, PyStr.rsplit1. rewrite Hdot.
  destruct (PyStr.rsplit_last "." name) as [[pre post]|] eqn:E.
  - rewrite (rsplit_last_prefix "." front name pre post E).
    apply rsplit_last_some in E as [-> _].
    rewrite <- string_app_assoc, contains_char_app. reflexivity.
  - apply rsplit_last_none in E. congruence.
Qed.

Lemma allowed_file_ignores_what_precedes_witness :
  allowed_file ("../../etc/passwd.exe" +:+ ".PDF") = allowed_file ".PDF".
Proof.
  apply (allowed_file_ignores_what_precedes "../../etc/passwd.exe" ".PDF").
  reflexivity.
Defined.

(** ** Text extraction, continued *)

(** X3. When the document opens, every page gives its text and the document
    closes, the extractor returns the texts of the pages joined in page
    order with nothing in between; the session is unchanged and no document
    is left open. *)
Theorem extract_returns_page_texts
  (w : World) (c : Chatbot) (document : PdfDocument) (txt : string) :
  pymupdf_open w (filename c) = Ret document ->
  page_texts (pages document) = Ret txt ->
  close document = Ret tt ->
  exists t,
    _extract_text_from_pdf w c = MkRun (Ret txt) c t /\
    open_handles t 0 = 0.
Proof.
  intros Hopen Hpages Hclose.
  unfold _extract_text_from_pdf, try_except, bind, gets, call, emit, print, emit, ret.
  rewrite Hopen.
  destruct (read_pages_run (pages document) "" c) as (t & -> & Ht).
  rewrite Hpages, Hclose. cbn. eexists. split; [reflexivity|].
  cbn [open_handles]. rewrite !open_handles_app, Ht. reflexivity.
Qed.

Lemma extract_returns_page_texts_witness :
  exists t,
    _extract_text_from_pdf (Scenario.services_up Scenario.two_page_pdf)
      Scenario.unindexed_session =
    MkRun (Ret "Hello world.") Scenario.unindexed_session t /\
    open_handles t 0 = 0.
Proof.
  apply (extract_returns_page_texts (Scenario.services_up Scenario.two_page_pdf)
           Scenario.unindexed_session Scenario.two_page_pdf "Hello world.");
    reflexivity.
Defined.

(** X4. When the document cannot be opened, a page cannot be read, or the
    document cannot be closed, the extractor returns the empty string, not
    the text read so far; the session is unchanged, nothing is raised, and
    the last thing done is to print "Error extracting text from PDF: " with
    the text of the exception. *)
Theorem extract_failure_is_empty_and_logged
  (w : World) (c : Chatbot) (e : exn) :
  (pymupdf_open w (filename c) = Raise e \/
   exists document,
     pymupdf_open w (filename c) = Ret document /\
     (page_texts (pages document) = Raise e \/
      exists txt, page_texts (pages document) = Ret txt /\
                  close document = Raise e)) ->
  exists t,
    _extract_text_from_pdf w c =
    MkRun (Ret "") c
      (t ++ [Printed ("Error extracting text from PDF: " +:+ exn_str e)])%list.
Proof.
  intros Hfail.
  unfold _extract_text_from_pdf, try_except, bind, gets, call, emit, print, emit, ret.
  destruct Hfail as [Hopen|(document & Hopen & Hfail)]; rewrite Hopen.
  - exists [Called "pymupdf.open"]. reflexivity.
  - destruct (read_pages_run (pages document) "" c) as (t & -> & _).
    destruct Hfail as [Hpages|(txt & Hpages & Hclose)]; rewrite Hpages.
    + exists (Called "pymupdf.open" :: Opened :: t). cbn.
      rewrite ?app_nil_r. reflexivity.
    + rewrite Hclose.
      exists (Called "pymupdf.open" :: Opened :: t ++ [Called "document.close"])%list.
      cbn. rewrite ?app_nil_r, <- ?app_assoc. reflexivity.
Qed.

Lemma extract_failure_is_empty_and_logged_witness :
  exists t,
    _extract_text_from_pdf (Scenario.services_up Scenario.damaged_pdf)
      Scenario.unindexed_session =
    MkRun (Ret "") Scenario.unindexed_session
      (t ++ [Printed "Error extracting text from PDF: cannot decode page"])%list.
Proof.
  apply (extract_failure_is_empty_and_logged
           (Scenario.services_up Scenario.damaged_pdf) Scenario.unindexed_session
           (Exception "RuntimeError" "cannot decode page")).
  right. exists Scenario.damaged_pdf. split; [reflexivity|]. left. reflexivity.
Defined.

(** ** Queries, continued *)

(** On a session with an index, when the engine is built, the query
    returns and the response renders as [s], [ask_query] returns [s] as it
    is.  It made exactly three calls, in this order, the engine being built
    with the session's own LLM, and it left the session unchanged. *)
Lemma ask_query_answers_verbatim
  (c : Chatbot) (idx : Index) (q : value)
  (engine : QueryEngine) (response : Response) (s : string) :
  index c = Some idx ->
  as_query_engine idx (llm c) = Ret engine ->
  query engine q = Ret response ->
  response_str response = Ret s ->
  ask_query q c =
  MkRun (Ret s) c
    [Called "index.as_query_engine"; Called "query_engine.query"; Called "str"].
Proof.
  intros Hidx Hengine Hquery Hstr.
  unfold ask_query, bind, gets, try_except, call. rewrite Hidx.
  cbn. rewrite Hengine. cbn. rewrite Hquery. cbn. rewrite Hstr. reflexivity.
Qed.

(** X5. [ask_query] never raises and never changes the session.  For
    every session and query it returns a string, and which one is decided
    by the session and the library: the fixed sentence, with nothing called,
    when there is no index; the rendering of the engine's response when
    building the engine, querying it and rendering all return; and "Error
    processing query: " followed by the text of the exception that the
    first failing one of these three calls raised. *)
Theorem ask_query_returns_one_of_three (c : Chatbot) (q : value) :
  exists s t,
    ask_query q c = MkRun (Ret s) c t /\
    (index c = None -> s = NOT_PROCESSED /\ t = []) /\
    (forall idx, index c = Some idx ->
       (forall engine response rendered,
           as_query_engine idx (llm c) = Ret engine ->
           query engine q = Ret response ->
           response_str response = Ret rendered ->
           s = rendered) /\
       (forall e,
           (as_query_engine idx (llm c) = Raise e \/
            exists engine, as_query_engine idx (llm c) = Ret engine /\
              (query engine q = Raise e \/
               exists response, query engine q = Ret response /\
                                response_str response = Raise e)) ->
           s = "Error processing query: " +:+ exn_str e)).
Proof.
  destruct (index c) as [idx|] eqn:Hidx.
  - unfold ask_query, bind, gets, try_except, call, ret. rewrite Hidx. cbn.
    destruct (as_query_engine idx (llm c)) as [engine|e] eqn:Hengine; cbn.
    + destruct (query engine q) as [response|e] eqn:Hquery; cbn.
      * destruct (response_str response) as [s|e] eqn:Hstr; cbn;
          eexists; eexists; (split; [reflexivity|]);
          (split; [discriminate|]); intros idx' [= <-]; rewrite Hengine; split.
        -- intros engine' response' rendered [= <-]. rewrite Hquery.
           intros [= <-]. rewrite Hstr. congruence.
        -- intros e [He|(engine' & [= <-] & He)]; [discriminate|].
           rewrite Hquery in He.
           destruct He as [He|(response' & [= <-] & He)]; [discriminate|].
           congruence.
        -- intros engine' response' rendered [= <-]. rewrite Hquery.
           intros [= <-]. rewrite Hstr. discriminate.
        -- intros e' [He|(engine' & [= <-] & He)]; [discriminate|].
           rewrite Hquery in He.
           destruct He as [He|(response' & [= <-] & He)]; [discriminate|].
           congruence.
      * eexists; eexists; (split; [reflexivity|]);
          (split; [discriminate|]); intros idx' [= <-]; rewrite Hengine; split.
        -- intros engine' response' rendered [= <-]. rewrite Hquery. discriminate.
        -- intros e' [He|(engine' & [= <-] & He)]; [discriminate|].
           rewrite Hquery in He.
           destruct He as [He|(response' & He & _)]; [|discriminate].
           congruence.
    + eexists; eexists; (split; [reflexivity|]);
        (split; [discriminate|]); intros idx' [= <-]; rewrite Hengine; split.
      * intros engine' response' rendered. discriminate.
      * intros e' [He|(engine' & He & _)]; [|discriminate]. congruence.
  - exists NOT_PROCESSED, []. split; [apply ask_query_no_index; exact Hidx|].
    split; [auto|]. intros idx. discriminate.
Qed.

(** ** The chat handler, continued *)

Lemma on_chatbot_readonly {A} (m : M Chatbot A) :
  readonly m -> readonly (on_chatbot m).
Proof.
  intros Hm [c|]; [|reflexivity].
  unfold on_chatbot. specialize (Hm c).
  destruct (m c) as [o c' t]. simpl in *. congruence.
Qed.

Lemma chat_readonly (request : Request) : readonly (chat request).
Proof.
  unfold chat. apply readonly_bind; [apply readonly_gets|].
  intros [c|]; [|apply readonly_ret].
  apply readonly_bind; [apply readonly_lift|]. intros data.
  apply readonly_bind.
  - destruct (negb (Py.truthy data)); [apply readonly_ret|].
    run_structure.
  - intros [|]; [apply readonly_ret|].
    apply readonly_bind; [apply readonly_lift|]. intros q.
    apply readonly_bind; [apply on_chatbot_readonly, ask_query_readonly|].
    intros answer. apply readonly_ret.
Qed.

(** X6. Neither [chat] nor [status] rebinds or changes the session, whatever
    the body of the request is and also when [chat] raises; so [status]
    answers the same before and after any [chat]. *)
Theorem chat_and_status_leave_session (request : Request) (g : option Chatbot) :
  final (chat request g) = g /\
  final (status g) = g /\
  status (final (chat request g)) = status g.
Proof.
  pose proof (chat_readonly request g) as Hchat.
  split; [exact Hchat|]. split; [reflexivity|].
  rewrite Hchat. reflexivity.
Qed.

(** [chat] on a session, step by step: reading [request.json], the truth
    value of the body, the membership test, the subscript, then
    [ask_query]. *)
Lemma chat_on_session (request : Request) (c : Chatbot) :
  chat request (Some c) =
  match json request with
  | Raise e => MkRun (Raise e) (Some c) []
  | Ret data =>
      if negb (Py.truthy data) then
        MkRun (Ret (jsonify_with {["error" := VStr "No message provided"]} 400))
              (Some c) []
      else
        match Py.contains "message" data with
        | Raise e => MkRun (Raise e) (Some c) []
        | Ret false =>
            MkRun (Ret (jsonify_with {["error" := VStr "No message provided"]} 400))
                  (Some c) []
        | Ret true =>
            match Py.getitem data "message" with
            | Raise e => MkRun (Raise e) (Some c) []
            | Ret q =>
                MkRun (match result (ask_query q c) with
                       | Ret answer => Ret (jsonify {["response" := VStr answer]})
                       | Raise e => Raise e
                       end)
                      (Some (final (ask_query q c)))
                      (trace (ask_query q c))
            end
        end
  end.
Proof.
  unfold chat, bind, gets, lift, ret, on_chatbot.
  destruct (json request) as [data|e]; [|reflexivity].
  cbn -[ask_query Py.truthy Py.contains Py.getitem].
  destruct (Py.truthy data); cbn -[ask_query Py.contains Py.getitem];
    [|reflexivity].
  destruct (Py.contains "message" data) as [[|]|e];
    cbn -[ask_query Py.getitem]; try reflexivity.
  destruct (Py.getitem data "message") as [q|e];
    cbn -[ask_query]; [|reflexivity].
  destruct (ask_query q c) as [[answer|e] c' t]; cbn; rewrite ?app_nil_r;
    reflexivity.
Qed.

Lemma list_has_message (l : list value) :
  existsb (fun x => match x with
                    | VStr s => String.eqb s "message"
                    | _ => false
                    end) l = true <->
  In (VStr "message") l.
Proof.
  rewrite existsb_exists. split.
  - intros (x & Hin & Hx). destruct x; try discriminate.
    apply String.eqb_eq in Hx. subst. exact Hin.
  - intros Hin. exists (VStr "message"). split; [exact Hin | reflexivity].
Qed.

(** Closes the cases of the next proof in which [chat] returns: nothing is
    raised, and the body is none of the raising ones. *)
Ltac never_raises :=
  split; [|discriminate];
  split; [intros [? ?]; discriminate|];
  intros [[? H]|[H|[(? & H & ?)|[(? & H & ?)|(? & H & ?)]]]];
  try discriminate H; injection H as <-;
  first [congruence | discriminate | contradiction].

(** X7. Against an existing session, [chat] raises exactly when reading
    [request.json] raises (the body is not JSON), or the parsed body is
    truthy and not a dict in one of these ways: [True] or a non-zero number
    (the membership test fails), a list that contains "message" or a string
    that contains "message" (the subscript fails).  What is raised is the
    exception of [request.json] in the first case and a [TypeError] in the
    others; nothing was called, and the session is unchanged. *)
Theorem chat_raises_exactly_on_non_dict_bodies (request : Request) (c : Chatbot) :
  ((exists e, result (chat request (Some c)) = Raise e) <->
   (exists e, json request = Raise e) \/
   json request = Ret (VBool true) \/
   (exists n, json request = Ret (VInt n) /\ n <> 0%Z) \/
   (exists l, json request = Ret (VList l) /\ In (VStr "message") l) \/
   (exists s, json request = Ret (VStr s) /\ PyStr.contains "message" s = true)) /\
  (forall e, result (chat request (Some c)) = Raise e ->
             (json request = Raise e \/ exn_class e = "TypeError") /\
             final (chat request (Some c)) = Some c /\
             trace (chat request (Some c)) = []).
Proof.
  rewrite chat_on_session.
  destruct (json request) as [[|b|n|s|l|d]|e0].
  - cbn. never_raises.
  - destruct b; cbn.
    + split; [|intros e [= <-]; auto]. split; [auto|eauto].
    + never_raises.
  - cbn -[Z.eqb]. destruct (Z.eqb_spec n 0) as [->|Hn]; cbn.
    + never_raises.
    + split; [|intros e [= <-]; auto].
      split; [intros _; right; right; left; exists n; auto|eauto].
  - destruct s as [|a s]; [cbn; never_raises|].
    cbn -[PyStr.contains].
    destruct (PyStr.contains "message" (String a s)) eqn:Hin; cbn.
    + split; [|intros e [= <-]; auto].
      split; [intros _; do 4 right; exists (String a s); auto|eauto].
    + never_raises.
  - destruct l as [|x l]; [cbn; never_raises|].
    cbn -[existsb].
    destruct (existsb _ (x :: l)) eqn:Hin; cbn.
    + apply list_has_message in Hin.
      split; [|intros e [= <-]; auto].
      split; [intros _; do 3 right; left; exists (x :: l); auto|eauto].
    + assert (Hnot : ~ In (VStr "message") (x :: l)).
      { intros Hl. apply list_has_message in Hl. congruence. }
      never_raises.
  - destruct (negb (Py.truthy (VDict d))); [never_raises|].
    cbn -[ask_query]. destruct (d !! "message") as [q|]; cbn -[ask_query];
      [|never_raises].
    destruct (run_total_readonly (ask_query q) c
                (ask_query_total q) (ask_query_readonly q)) as (s & t & ->).
    cbn. never_raises.
  - cbn. split; [|intros e [= <-]; auto]. split; [eauto|eauto].
Qed.

Lemma chat_raises_on_malformed_body :
  result (chat Scenario.malformed_chat (Some Scenario.answering_session)) =
  Raise (Exception "BadRequest" "400 Bad Request: Failed to decode JSON object").
Proof. reflexivity. Qed.

(** X8. [chat] answers 200 or 400 and nothing else; it answers 200 only to
    a dict body that has the key "message", against an existing session,
    and the answer then carries what [ask_query] returned for the value of
    that key. *)
Theorem chat_answers_200_only_to_message
  (request : Request) (g : option Chatbot) (resp : HttpResponse) :
  result (chat request g) = Ret resp ->
  (status_code resp = 400 \/ status_code resp = 200) /\
  (status_code resp = 200 ->
   exists c d q answer,
     g = Some c /\ json request = Ret (VDict d) /\ d !! "message" = Some q /\
     result (ask_query q c) = Ret answer /\
     resp = jsonify {["response" := VStr answer]}).
Proof.
  destruct g as [c|]; [|intros [= <-]; split; [auto|discriminate]].
  rewrite chat_on_session.
  destruct (json request) as [data|e0]; [|discriminate].
  destruct (negb (Py.truthy data));
    [intros [= <-]; split; [auto|discriminate]|].
  destruct data as [|b|n|s|l|d]; cbn -[ask_query PyStr.contains existsb];
    try discriminate.
  - destruct (PyStr.contains "message" s); cbn; [discriminate|].
    intros [= <-]; split; [auto|discriminate].
  - destruct (existsb _ l); cbn; [discriminate|].
    intros [= <-]; split; [auto|discriminate].
  - destruct (d !! "message") as [q|] eqn:Hq; cbn -[ask_query];
      [|intros [= <-]; split; [auto|discriminate]].
    destruct (result (ask_query q c)) as [answer|e] eqn:Hans; [|discriminate].
    intros [= <-]. split; [auto|]. intros _.
    exists c, d, q, answer. auto.
Qed.

Lemma chat_answers_200_only_to_message_witness :
  exists c d q answer,
    Some Scenario.answering_session = Some c /\
    json (Scenario.chat_of (VDict {["message" := VStr "Hi"]})) = Ret (VDict d) /\
    d !! "message" = Some q /\
    result (ask_query q c) = Ret answer /\
    jsonify {["response" := VStr "It says hello."]} =
    jsonify {["response" := VStr answer]}.
Proof.
  apply (chat_answers_200_only_to_message
           (Scenario.chat_of (VDict {["message" := VStr "Hi"]}))
           (Some Scenario.answering_session)
           (jsonify {["response" := VStr "It says hello."]})).
  - vm_compute. reflexivity.
  - reflexivity.
Defined.

(** ** Session set-up, continued *)

(** The run of [_initialize_with_file], call by call: the first set-up call
    that raises ends it, with the attributes assigned so far; once the vector
    store is created nothing raises any more. *)
Lemma initialize_run (w : World) (path : string) (c : Chatbot) :
  let r := _initialize_with_file w path c in
  let c0 := set_filename (Some path) c in
  match OpenAI w "gpt-4-1106-preview" (getenv w "OPENAI_API_KEY") with
  | Raise e => result r = Raise e /\ final r = c0
  | Ret l =>
      let c1 := set_llm (Some l) c0 in
      match OpenAIEmbedding w (getenv w "OPENAI_API_KEY") with
      | Raise e => result r = Raise e /\ final r = c1
      | Ret em =>
          let c2 := set_embeddings (Some em) c1 in
          match connect_to_wcs w (getenv w "WEAVIATE_CLUSTER_URL")
                  {| api_key := getenv w "WEAVIATE_API_KEY" |} with
          | Raise e => result r = Raise e /\ final r = c2
          | Ret cl =>
              let c3 := set_client (Some cl) c2 in
              match WeaviateVectorStore w (Some cl) "Chatbot" with
              | Raise e => result r = Raise e /\ final r = c3
              | Ret vs =>
                  let c4 := set_vector_store (Some vs) c3 in
                  exists i s,
                    result (_process_document w c4) = Ret i /\
                    result (get_initial_summary (set_index i c4)) = Ret s /\
                    result r = Ret tt /\
                    final r = set_summary (Some s) (set_index i c4)
              end
          end
      end
  end.
Proof.
  unfold _initialize_with_file, _connect_to_weaviate, _create_vector_store.
  run_step.
  destruct (OpenAI w _ _) as [l|e]; run_step; [|auto].
  destruct (OpenAIEmbedding w _) as [em|e]; run_step; [|auto].
  destruct (connect_to_wcs w _ _) as [cl|e]; run_step; [|auto].
  destruct (WeaviateVectorStore w _ _) as [vs|e]; run_step; [|auto].
  set (c4 := set_vector_store _ _).
  destruct (run_total_readonly (_process_document w) c4
              (process_document_total w) (process_document_readonly w))
    as (i & t & Hp).
  assert (Hi : result (_process_document w c4) = Ret i) by (rewrite Hp; reflexivity).
  rewrite Hp. run_step.
  set (c5 := set_index i c4).
  destruct (run_total_readonly get_initial_summary c5
              get_initial_summary_total get_initial_summary_readonly)
    as (s & t' & Hs).
  assert (Hsum : result (get_initial_summary c5) = Ret s)
    by (rewrite Hs; reflexivity).
  rewrite Hs. run_step.
  exists i, s. repeat split; first [reflexivity | exact Hi | exact Hsum].
Qed.

(** The answer of [ask_query] does not depend on the stored summary. *)
Lemma ask_query_set_summary (q : value) (v : option string) (c : Chatbot) :
  ask_query q (set_summary v c) =
  MkRun (result (ask_query q c)) (set_summary v c) (trace (ask_query q c)).
Proof.
  unfold ask_query, bind, gets, try_except, call, ret. cbn.
  destruct (index c) as [idx|]; cbn; [|reflexivity].
  destruct (as_query_engine idx (llm c)) as [engine|e]; cbn; [|reflexivity].
  destruct (query engine q) as [response|e]; cbn; [|reflexivity].
  destruct (response_str response); reflexivity.
Qed.

(** A session whose set-up stopped early: the path is set, there is no
    index and no summary. *)
Ltac partial_session Hrun :=
  destruct Hrun as [_ ->]; cbn;
  split; [reflexivity|];
  split; [eauto|];
  split; [intros [? ?]; discriminate | intros _; left; reflexivity].

(** Whatever [_initialize_with_file] got to, it leaves a well-formed session
    whose path is the one it was given. *)
Lemma initialize_well_formed (w : World) (path : string) :
  let c := final (_initialize_with_file w path Chatbot_init) in
  filename c = Some path /\ well_formed c.
Proof.
  pose proof (initialize_run w path Chatbot_init) as Hrun. cbv zeta in Hrun |- *.
  unfold well_formed.
  destruct (OpenAI w _ _) as [l|e]; [|partial_session Hrun].
  destruct (OpenAIEmbedding w _) as [em|e]; [|partial_session Hrun].
  destruct (connect_to_wcs w _ _) as [cl|e]; [|partial_session Hrun].
  destruct (WeaviateVectorStore w _ _) as [vs|e]; [|partial_session Hrun].
  destruct Hrun as (i & s & _ & Hs & _ & ->). cbn.
  split; [reflexivity|]. split; [eauto|]. split; [eauto 10|].
  intros Hi. subst i.
  rewrite get_initial_summary_without_index in Hs by reflexivity.
  right. cbn in Hs. congruence.
Qed.

(** ** The upload handler, continued *)

(** The module variable after an upload: what it was, or a fresh object as
    far as its initialisation got. *)
Lemma upload_final_cases (w : World) (request : Request) (g : option Chatbot) :
  final (upload_file w request g) = g \/
  exists path,
    final (upload_file w request g) =
    Some (final (_initialize_with_file w path Chatbot_init)).
Proof.
  unfold upload_file, fs_truthy.
  destruct (files request !! "file") as [file|]; run_step; [|auto].
  destruct (String.eqb (fs_filename file) ""); run_step; [auto|].
  destruct (allowed_file (fs_filename file)) as [[|]|e]; run_step; [|auto|auto].
  destruct (fs_save file _) as [[]|e]; run_step; [|auto].
  set (path := Py.path_join _ _). right. exists path.
  destruct (_initialize_with_file w path Chatbot_init) as [[[]|e] c' t];
    reflexivity.
Qed.

(** X9. An accepted and stored upload does not depend on the session that
    was there: the answer, the new session and everything done are the same
    whatever the module variable held.  The earlier session is replaced as
    a whole. *)
Theorem upload_supersedes_session
  (w : World) (request : Request) (path : string) (g g' : option Chatbot) :
  stored_upload w request path ->
  upload_file w request g = upload_file w request g'.
Proof.
  intros Hup.
  rewrite (upload_stored w request path g Hup),
    (upload_stored w request path g' Hup).
  reflexivity.
Qed.

Lemma upload_supersedes_session_witness :
  upload_file (Scenario.services_up Scenario.two_page_pdf)
    (Scenario.upload_of "paper.pdf") (Some Scenario.llm_down_session) =
  upload_file (Scenario.services_up Scenario.two_page_pdf)
    (Scenario.upload_of "paper.pdf") chatbot_at_start.
Proof.
  apply (upload_supersedes_session (Scenario.services_up Scenario.two_page_pdf)
           (Scenario.upload_of "paper.pdf") "uploads/paper.pdf").
  eexists. repeat split; vm_compute; reflexivity.
Defined.

(** X10. When the file passes the filter and cannot be saved, the exception
    of [file.save] leaves the handler; no [Chatbot] was made, so the session
    that was there is still there, and nothing but the save was attempted. *)
Theorem upload_save_failure_keeps_session
  (w : World) (request : Request) (g : option Chatbot)
  (file : FileStorage) (e : exn) :
  files request !! "file" = Some file ->
  allowed_file (fs_filename file) = Ret true ->
  fs_save file (Py.path_join UPLOAD_FOLDER (secure_filename w (fs_filename file)))
  = Raise e ->
  upload_file w request g = MkRun (Raise e) g [Called "file.save"].
Proof.
  intros Hfile Hok Hsave.
  unfold upload_file, fs_truthy. rewrite Hfile, (allowed_file_nonempty _ Hok).
  run_step. rewrite Hok. run_step. rewrite Hsave. reflexivity.
Qed.

Lemma upload_save_failure_keeps_session_witness :
  upload_file (Scenario.services_up Scenario.two_page_pdf)
    Scenario.unsavable_upload (Some Scenario.answering_session) =
  MkRun (Raise (Exception "PermissionError" "Permission denied"))
        (Some Scenario.answering_session) [Called "file.save"].
Proof.
  apply (upload_save_failure_keeps_session
           (Scenario.services_up Scenario.two_page_pdf) Scenario.unsavable_upload
           (Some Scenario.answering_session) Scenario.unsavable_file);
    vm_compute; reflexivity.
Defined.

(** The three parts of the next statement for an answer 400 given before
    anything was done; what is left is that the request is not accepted. *)
Ltac refused_upload :=
  split; [right; reflexivity|];
  split; [split; [intros _|reflexivity] | intros _; split; reflexivity].

(** X11. Whenever [upload_file] returns, the status is 200 or 400.  It is
    400 exactly when the request has no file part or a file whose name the
    filter refuses (the empty name included); a 400 leaves the session as it
    was and does nothing else. *)
Theorem upload_answers_400_iff_not_accepted
  (w : World) (request : Request) (g : option Chatbot) (resp : HttpResponse) :
  result (upload_file w request g) = Ret resp ->
  (status_code resp = 200 \/ status_code resp = 400) /\
  (status_code resp = 400 <-> ~ accepted request) /\
  (status_code resp = 400 ->
   final (upload_file w request g) = g /\ trace (upload_file w request g) = []).
Proof.
  unfold upload_file, fs_truthy, accepted.
  destruct (files request !! "file") as [file|]; run_step.
  - destruct (String.eqb (fs_filename file) "") eqn:Hname; run_step.
    + intros [= <-]. cbn. refused_upload.
      intros (file' & [= <-] & Hok).
      apply allowed_file_nonempty in Hok. congruence.
    + destruct (allowed_file (fs_filename file)) as [[|]|e] eqn:Hok; run_step;
        [| |discriminate].
      * destruct (fs_save file _) as [[]|e']; run_step; [|discriminate].
        destruct (_initialize_with_file w _ Chatbot_init) as [[[]|e'] c' t];
          run_step; [|discriminate].
        intros [= <-]. cbn. split; [auto|]. split; [|discriminate].
        split; [discriminate|]. intros Hno. exfalso. apply Hno. eauto.
      * intros [= <-]. cbn. refused_upload.
        intros (file' & [= <-] & Hok'). congruence.
  - intros [= <-]. cbn. refused_upload.
    intros (file' & Hfile & _). discriminate.
Qed.

Lemma upload_answers_400_iff_not_accepted_witness :
  final (upload_file (Scenario.services_up Scenario.two_page_pdf)
           (Scenario.chat_of VNone) (Some Scenario.answering_session)) =
  Some Scenario.answering_session.
Proof.
  apply (upload_answers_400_iff_not_accepted
           (Scenario.services_up Scenario.two_page_pdf)
           (Scenario.chat_of VNone) (Some Scenario.answering_session)
           (jsonify_with {["error" := VStr "No file part"]} 400));
    reflexivity.
Defined.

(** X12. For an accepted and stored upload, the handler returns exactly
    when the four set-up calls return: the two OpenAI objects, the Weaviate
    connection and the vector store.  Nothing that happens after them can
    make the handler raise, and any of them failing does. *)
Theorem upload_returns_iff_setup_returns
  (w : World) (request : Request) (path : string) (g : option Chatbot) :
  stored_upload w request path ->
  ((exists resp, result (upload_file w request g) = Ret resp) <->
   (exists l em cl vs,
      OpenAI w "gpt-4-1106-preview" (getenv w "OPENAI_API_KEY") = Ret l /\
      OpenAIEmbedding w (getenv w "OPENAI_API_KEY") = Ret em /\
      connect_to_wcs w (getenv w "WEAVIATE_CLUSTER_URL")
        {| api_key := getenv w "WEAVIATE_API_KEY" |} = Ret cl /\
      WeaviateVectorStore w (Some cl) "Chatbot" = Ret vs)).
Proof.
  intros Hup. rewrite (upload_stored w request path g Hup). cbv zeta.
  pose proof (initialize_run w path Chatbot_init) as Hrun. cbv zeta in Hrun.
  cbn [result].
  destruct (OpenAI w _ _) as [l|e].
  2:{ destruct Hrun as [-> _]. split; [intros [? ?]; discriminate|].
      intros (? & ? & ? & ? & ? & _). discriminate. }
  destruct (OpenAIEmbedding w _) as [em|e].
  2:{ destruct Hrun as [-> _]. split; [intros [? ?]; discriminate|].
      intros (? & ? & ? & ? & _ & ? & _). discriminate. }
  destruct (connect_to_wcs w _ _) as [cl|e].
  2:{ destruct Hrun as [-> _]. split; [intros [? ?]; discriminate|].
      intros (? & ? & ? & ? & _ & _ & ? & _). discriminate. }
  destruct (WeaviateVectorStore w (Some cl) "Chatbot") as [vs|e] eqn:Hvs.
  2:{ destruct Hrun as [-> _]. split; [intros [? ?]; discriminate|].
      intros (? & ? & cl' & ? & _ & _ & [= <-] & ?). congruence. }
  destruct Hrun as (i & s & _ & _ & -> & _).
  split; [|eauto]. intros _. exists l, em, cl, vs. auto.
Qed.

Lemma upload_returns_iff_setup_returns_witness :
  (exists resp,
      result (upload_file Scenario.indexing_down (Scenario.upload_of "paper.pdf")
                chatbot_at_start) = Ret resp) <->
  (exists l em cl vs,
      OpenAI Scenario.indexing_down "gpt-4-1106-preview"
        (getenv Scenario.indexing_down "OPENAI_API_KEY") = Ret l /\
      OpenAIEmbedding Scenario.indexing_down
        (getenv Scenario.indexing_down "OPENAI_API_KEY") = Ret em /\
      connect_to_wcs Scenario.indexing_down
        (getenv Scenario.indexing_down "WEAVIATE_CLUSTER_URL")
        {| api_key := getenv Scenario.indexing_down "WEAVIATE_API_KEY" |} = Ret cl /\
      WeaviateVectorStore Scenario.indexing_down (Some cl) "Chatbot" = Ret vs).
Proof.
  apply (upload_returns_iff_setup_returns Scenario.indexing_down
           (Scenario.upload_of "paper.pdf") "uploads/paper.pdf" chatbot_at_start).
  eexists. repeat split; vm_compute; reflexivity.
Defined.

(** X13. After an upload answered 200, [status] reports an initialised
    session whose summary is a string, never null: the same string that the
    upload answer carried. *)
Theorem status_repeats_upload_summary
  (w : World) (request : Request) (g : option Chatbot) (resp : HttpResponse) :
  result (upload_file w request g) = Ret resp ->
  status_code resp = 200 ->
  exists s,
    resp = jsonify (<["message" := VStr "File uploaded successfully"]>
                      {["summary" := VStr s]}) /\
    result (status (final (upload_file w request g))) =
    Ret (jsonify (<["initialized" := VBool true]> {["summary" := VStr s]})).
Proof.
  intros Hres Hcode.
  destruct (upload_200 w request g resp Hres Hcode) as (path & Hinit & -> & ->).
  pose proof (initialize_outcome w path Chatbot_init) as Hout.
  cbv zeta in Hout. rewrite Hinit in Hout. destruct Hout as (c' & s & _ & _ & Hs).
  exists s. rewrite Hs. split; [reflexivity|].
  unfold status, bind, gets, ret. cbn -[_initialize_with_file].
  rewrite Hs. reflexivity.
Qed.

Lemma status_repeats_upload_summary_witness :
  exists s,
    jsonify (<["message" := VStr "File uploaded successfully"]>
               {["summary" := VStr "Empty Response"]}) =
    jsonify (<["message" := VStr "File uploaded successfully"]>
               {["summary" := VStr s]}) /\
    result (status (final (upload_file (Scenario.services_up Scenario.two_page_pdf)
                             (Scenario.upload_of "paper.pdf") chatbot_at_start))) =
    Ret (jsonify (<["initialized" := VBool true]> {["summary" := VStr s]})).
Proof.
  apply (status_repeats_upload_summary (Scenario.services_up Scenario.two_page_pdf)
           (Scenario.upload_of "paper.pdf") chatbot_at_start
           (jsonify (<["message" := VStr "File uploaded successfully"]>
                       {["summary" := VStr "Empty Response"]}))).
  - vm_compute. reflexivity.
  - reflexivity.
Defined.

Lemma get_initial_summary_with_index (c : Chatbot) (idx : Index) :
  index c = Some idx ->
  get_initial_summary c = ask_query (VStr SUMMARY_QUERY) c.
Proof.
  intros H. unfold get_initial_summary, bind, gets. rewrite H.
  destruct (ask_query (VStr SUMMARY_QUERY) c) as [o c' t]. reflexivity.
Qed.

(** X14. After an upload answered 200 that built an index, the stored
    summary is what [ask_query] returns on that session for the fixed
    question "Please provide a brief summary of the document.": the text of
    the engine, or the "Error processing query: ..." message when the query
    failed.  A failed summary query does not undo the index. *)
Theorem summary_is_answer_to_summary_query
  (w : World) (request : Request) (g : option Chatbot) (resp : HttpResponse)
  (c : Chatbot) (idx : Index) :
  result (upload_file w request g) = Ret resp ->
  status_code resp = 200 ->
  final (upload_file w request g) = Some c ->
  index c = Some idx ->
  exists s,
    summary c = Some s /\
    result (ask_query (VStr SUMMARY_QUERY) c) = Ret s /\
    resp = jsonify (<["message" := VStr "File uploaded successfully"]>
                      {["summary" := VStr s]}).
Proof.
  intros Hres Hcode Hfinal Hidx.
  destruct (upload_200 w request g resp Hres Hcode) as (path & Hinit & Hfin & ->).
  rewrite Hfin in Hfinal. injection Hfinal as Hc.
  pose proof (initialize_run w path Chatbot_init) as Hrun. cbv zeta in Hrun.
  destruct (OpenAI w _ _) as [l|e]; [|destruct Hrun; congruence].
  destruct (OpenAIEmbedding w _) as [em|e]; [|destruct Hrun; congruence].
  destruct (connect_to_wcs w _ _) as [cl|e]; [|destruct Hrun; congruence].
  destruct (WeaviateVectorStore w _ _) as [vs|e]; [|destruct Hrun; congruence].
  destruct Hrun as (i & s & _ & Hs & _ & Hshape).
  rewrite Hshape in Hc |- *. subst c. cbn in Hidx. subst i.
  rewrite (get_initial_summary_with_index (set_index (Some idx) _) idx eq_refl)
    in Hs.
  exists s. split; [reflexivity|]. split; [|reflexivity].
  rewrite ask_query_set_summary. exact Hs.
Qed.

Lemma summary_is_answer_to_summary_query_witness :
  exists s,
    summary Scenario.llm_down_upload = Some s /\
    result (ask_query (VStr SUMMARY_QUERY) Scenario.llm_down_upload) = Ret s /\
    jsonify (<["message" := VStr "File uploaded successfully"]>
               {["summary" := VStr "Error processing query: Connection error."]}) =
    jsonify (<["message" := VStr "File uploaded successfully"]>
               {["summary" := VStr s]}).
Proof.
  apply (summary_is_answer_to_summary_query Scenario.llm_down_world
           (Scenario.upload_of "paper.pdf") chatbot_at_start
           (jsonify (<["message" := VStr "File uploaded successfully"]>
                       {["summary" := VStr "Error processing query: Connection error."]}))
           Scenario.llm_down_upload Scenario.llm_down_index);
    vm_compute; reflexivity.
Defined.

(** X15. After an accepted and stored upload, the session's path is the
    path the file was saved under, whatever happened during the set-up: the
    extractor is given the file that was just written.  The save comes
    first, before any service is contacted. *)
Theorem upload_session_points_at_saved_file
  (w : World) (request : Request) (path : string) (g : option Chatbot) :
  stored_upload w request path ->
  exists c t,
    final (upload_file w request g) = Some c /\
    filename c = Some path /\
    trace (upload_file w request g) = Called "file.save" :: Saved path :: t.
Proof.
  intros Hup. rewrite (upload_stored w request path g Hup). cbv zeta.
  destruct (initialize_well_formed w path) as [Hname _].
  exists (final (_initialize_with_file w path Chatbot_init)),
    (trace (_initialize_with_file w path Chatbot_init)).
  split; [reflexivity|]. split; [exact Hname | reflexivity].
Qed.

Lemma upload_session_points_at_saved_file_witness :
  exists c t,
    final (upload_file Scenario.cluster_down (Scenario.upload_of "paper.pdf")
             chatbot_at_start) = Some c /\
    filename c = Some "uploads/paper.pdf" /\
    trace (upload_file Scenario.cluster_down (Scenario.upload_of "paper.pdf")
             chatbot_at_start) =
    Called "file.save" :: Saved "uploads/paper.pdf" :: t.
Proof.
  apply (upload_session_points_at_saved_file Scenario.cluster_down
           (Scenario.upload_of "paper.pdf") "uploads/paper.pdf" chatbot_at_start).
  eexists. repeat split; vm_compute; reflexivity.
Defined.

(** ** Index construction, continued *)

(** When every step of the [try] block returns, the index that was built is
    handed back. *)
Lemma process_document_index
  (w : World) (c : Chatbot) (idx : Index)
  (txt : string) (splitter : Splitter) (chunks : list string) (ctx : StorageContext) :
  result (_extract_text_from_pdf w c) = Ret txt ->
  TokenTextSplitter w 512 20 = Ret splitter ->
  split_text splitter txt = Ret chunks ->
  StorageContext_from_defaults w (vector_store c) = Ret ctx ->
  VectorStoreIndex_from_documents w
    (map (fun chunk => {| text := chunk |}) chunks) ctx (embeddings c) = Ret idx ->
  result (_process_document w c) = Ret (Some idx).
Proof.
  intros Htxt Hsp Hsplit Hctx Hidx.
  destruct (run_total_readonly (_extract_text_from_pdf w) c
              (extract_total w) (extract_readonly w)) as (txt' & t & Hrun).
  rewrite Hrun in Htxt. injection Htxt as ->.
  unfold _process_document, try_except, bind, _chunk_text, bind, call, gets, print,
    emit, ret.
  rewrite Hrun, Hsp. cbn. rewrite Hsplit. cbn. rewrite Hctx. cbn.
  rewrite Hidx. reflexivity.
Qed.

(** X16. [_process_document] returns an index exactly when the splitter is
    built (512 tokens, overlap 20), splits the extracted text, the storage
    context is made from the session's vector store and the index is built;
    the index is then the one built from one document per chunk, in the
    order of the chunks, with the session's embedding model. *)
Theorem process_document_builds_index_iff
  (w : World) (c : Chatbot) (idx : Index) :
  result (_process_document w c) = Ret (Some idx) <->
  exists txt splitter chunks ctx,
    result (_extract_text_from_pdf w c) = Ret txt /\
    TokenTextSplitter w 512 20 = Ret splitter /\
    split_text splitter txt = Ret chunks /\
    StorageContext_from_defaults w (vector_store c) = Ret ctx /\
    VectorStoreIndex_from_documents w
      (map (fun chunk => {| text := chunk |}) chunks) ctx (embeddings c) = Ret idx.
Proof.
  split; [apply process_document_some|].
  intros (txt & sp & chunks & ctx & Htxt & Hsp & Hsplit & Hctx & Hidx).
  exact (process_document_index w c idx txt sp chunks ctx Htxt Hsp Hsplit Hctx Hidx).
Qed.

(** X17. A PDF that cannot be read does not by itself stop the ingestion:
    whenever extraction fails, the empty text is what is split and indexed,
    and the session gets the index built from the chunks of the empty
    text. *)
Theorem unreadable_pdf_is_indexed_as_empty_text
  (w : World) (c : Chatbot) (e : exn) (idx : Index)
  (splitter : Splitter) (chunks : list string) (ctx : StorageContext) :
  (pymupdf_open w (filename c) = Raise e \/
   exists document, pymupdf_open w (filename c) = Ret document /\
     (page_texts (pages document) = Raise e \/ close document = Raise e)) ->
  TokenTextSplitter w 512 20 = Ret splitter ->
  split_text splitter "" = Ret chunks ->
  StorageContext_from_defaults w (vector_store c) = Ret ctx ->
  VectorStoreIndex_from_documents w
    (map (fun chunk => {| text := chunk |}) chunks) ctx (embeddings c) = Ret idx ->
  result (_process_document w c) = Ret (Some idx).
Proof.
  intros Hfail Hsp Hsplit Hctx Hidx.
  apply (process_document_index w c idx "" splitter chunks ctx); try assumption.
  apply (extract_failure_returns_empty w c e). exact Hfail.
Qed.

Lemma unreadable_pdf_is_indexed_as_empty_text_witness :
  result (_process_document Scenario.broken_pdf_world Scenario.unindexed_session) =
  Ret (Some Scenario.empty_index).
Proof.
  apply (unreadable_pdf_is_indexed_as_empty_text Scenario.broken_pdf_world
           Scenario.unindexed_session
           (Exception "FileDataError" "cannot open broken document")
           Scenario.empty_index Scenario.whole_text_splitter []
           {| storage_vector_store := None |}); try reflexivity.
  left. reflexivity.
Defined.

(** X18. When [_process_document] returns no index, the session is
    unchanged and the last thing it did was to print "Error processing
    document: " with the text of an exception: the failure is reported on
    the console and nowhere else. *)
Theorem process_document_failure_logged (w : World) (c : Chatbot) :
  result (_process_document w c) = Ret None ->
  exists e t,
    _process_document w c =
    MkRun (Ret None) c
      (t ++ [Printed ("Error processing document: " +:+ exn_str e)])%list.
Proof.
  destruct (run_total_readonly (_extract_text_from_pdf w) c
              (extract_total w) (extract_readonly w)) as (txt & t & Hrun).
  unfold _process_document, try_except, bind, _chunk_text, bind, call, gets, print,
    emit, ret.
  rewrite Hrun.
  destruct (TokenTextSplitter w 512 20) as [sp|e]; cbn.
  2:{ intros _. exists e, (t ++ [Called "TokenTextSplitter"])%list.
      rewrite ?app_nil_r. reflexivity. }
  destruct (split_text sp txt) as [chunks|e]; cbn.
  2:{ intros _.
      exists e, (t ++ [Called "TokenTextSplitter"; Called "text_splitter.split_text"])%list.
      rewrite ?app_nil_r. reflexivity. }
  destruct (StorageContext_from_defaults w (vector_store c)) as [ctx|e]; cbn.
  2:{ intros _.
      exists e, (t ++ [Called "TokenTextSplitter"; Called "text_splitter.split_text";
                       Called "StorageContext.from_defaults"])%list.
      rewrite ?app_nil_r. reflexivity. }
  destruct (VectorStoreIndex_from_documents w _ ctx (embeddings c)) as [i|e]; cbn;
    [discriminate|].
  intros _.
  exists e, (t ++ [Called "TokenTextSplitter"; Called "text_splitter.split_text";
                   Called "StorageContext.from_defaults";
                   Called "VectorStoreIndex.from_documents"])%list.
  rewrite ?app_nil_r. reflexivity.
Qed.

Lemma process_document_failure_logged_witness :
  exists e t,
    _process_document Scenario.indexing_down Scenario.unindexed_session =
    MkRun (Ret None) Scenario.unindexed_session
      (t ++ [Printed ("Error processing document: " +:+ exn_str e)])%list.
Proof.
  apply (process_document_failure_logged Scenario.indexing_down
           Scenario.unindexed_session).
  vm_compute. reflexivity.
Defined.

(** ** Index construction and the session *)




(** ** Sessions the service can reach *)

Lemma upload_session_ok (w : World) (request : Request) (g : option Chatbot) :
  session_ok g -> session_ok (final (upload_file w request g)).
Proof.
  intros Hg. destruct (upload_final_cases w request g) as [->|[path ->]];
    [exact Hg|].
  apply (initialize_well_formed w path).
Qed.

Lemma after_session_ok (history : list Call) (g : option Chatbot) :
  session_ok g -> session_ok (after history g).
Proof.
  revert g. induction history as [|call rest IH]; intros g Hg; [exact Hg|].
  cbn [after]. apply IH. destruct call as [w request|request|]; cbn [handle].
  - apply upload_session_ok. exact Hg.
  - rewrite (chat_readonly request g). exact Hg.
  - exact Hg.
Qed.

(** X19. Whatever requests the service has handled since it started,
    including uploads that raised half-way, the session it holds, if any, is
    well formed: it has a path; if it has an index it also has its LLM,
    embedding model, client, vector store and a summary; if it has no index
    its summary is either not set or the fixed sentence "Failed to process
    document. No summary available.". *)
Theorem reachable_session_well_formed (history : list Call) :
  session_ok (after history chatbot_at_start).
Proof. apply after_session_ok. exact I. Qed.

(** ** Histories of requests *)

Lemma after_app (h1 h2 : list Call) (g : option Chatbot) :
  after (h1 ++ h2)%list g = after h2 (after h1 g).
Proof.
  revert g. induction h1 as [|call h1 IH]; intros g; [reflexivity|].
  cbn [after app]. apply IH.
Qed.

Lemma after_no_upload (history : list Call) (g : option Chatbot) :
  forallb (fun call => negb (is_upload call)) history = true ->
  after history g = g.
Proof.
  revert g. induction history as [|call rest IH]; intros g; [reflexivity|].
  cbn [forallb]. intros H. apply andb_prop in H as [Hcall Hrest].
  destruct call as [w request|request|]; [discriminate| |]; cbn [after handle].
  - rewrite (chat_readonly request g). apply IH. exact Hrest.
  - apply IH. exact Hrest.
Qed.

(** X20. The session the service holds is decided by the last upload that
    was accepted and stored, and by nothing else: not by what was uploaded
    or asked before it, nor by the chat and status requests after it. *)
Theorem last_stored_upload_decides_session
  (earlier later : list Call) (w : World) (request : Request) (path : string) :
  stored_upload w request path ->
  forallb (fun call => negb (is_upload call)) later = true ->
  after (earlier ++ Upload w request :: later)%list chatbot_at_start =
  Some (final (_initialize_with_file w path Chatbot_init)).
Proof.
  intros Hup Hlater. rewrite after_app. cbn [after handle].
  rewrite (after_no_upload later _ Hlater).
  rewrite (upload_stored w request path _ Hup). reflexivity.
Qed.

Lemma last_stored_upload_decides_session_witness :
  after ([Upload Scenario.llm_down_world (Scenario.upload_of "old.pdf");
          Chat (Scenario.chat_of (VDict {["message" := VStr "Hi"]}))] ++
         Upload (Scenario.services_up Scenario.scanned_pdf)
           (Scenario.upload_of "scan.pdf")
         :: [Status; Chat (Scenario.chat_of VNone)])%list chatbot_at_start =
  Some (final (_initialize_with_file (Scenario.services_up Scenario.scanned_pdf)
                 "uploads/scan.pdf" Chatbot_init)).
Proof.
  apply (last_stored_upload_decides_session
           [Upload Scenario.llm_down_world (Scenario.upload_of "old.pdf");
            Chat (Scenario.chat_of (VDict {["message" := VStr "Hi"]}))]
           [Status; Chat (Scenario.chat_of VNone)]
           (Scenario.services_up Scenario.scanned_pdf)
           (Scenario.upload_of "scan.pdf") "uploads/scan.pdf").
  - eexists. repeat split; vm_compute; reflexivity.
  - reflexivity.
Defined.

(** An upload that is not accepted is answered 400 at once. *)
Lemma upload_not_accepted (w : World) (request : Request) (g : option Chatbot) :
  ~ accepted request ->
  exists err,
    upload_file w request g =
    MkRun (Ret (jsonify_with {["error" := VStr err]} 400)) g [].
Proof.
  intros Hno. unfold upload_file, fs_truthy.
  destruct (files request !! "file") as [file|] eqn:Hfile; [|eauto].
  destruct (String.eqb (fs_filename file) ""); run_step; [eauto|].
  destruct (allowed_file_total (fs_filename file)) as [[|] Hok]; rewrite Hok;
    run_step; [|eauto].
  exfalso. apply Hno. exists file. auto.
Qed.

(** X21. No session exists until an upload passes the filter: after any
    history in which every upload lacked a file or had a refused name, the
    module variable is still [None], and [chat] answers 400 "Please upload
    a document first". *)
Theorem no_session_until_accepted_upload
  (history : list Call) (request : Request) :
  Forall (fun call => match call with
                      | Upload _ r => ~ accepted r
                      | _ => True
                      end) history ->
  after history chatbot_at_start = None /\
  chat request (after history chatbot_at_start) =
  MkRun (Ret (jsonify_with {["error" := VStr "Please upload a document first"]} 400))
        None [].
Proof.
  intros Hall.
  assert (Hnone : after history chatbot_at_start = None).
  { unfold chatbot_at_start. induction Hall as [|call rest Hcall _ IH];
      [reflexivity|].
    cbn [after]. destruct call as [w r|r|]; cbn [handle].
    - destruct (upload_not_accepted w r None Hcall) as [err ->]. exact IH.
    - rewrite chat_none. exact IH.
    - exact IH. }
  rewrite Hnone. split; [reflexivity | apply chat_none].
Qed.

Lemma no_session_until_accepted_upload_witness :
  after [Upload (Scenario.services_up Scenario.scanned_pdf)
           (Scenario.upload_of "notes.txt");
         Chat (Scenario.chat_of (VDict {["message" := VStr "Hi"]}))]
    chatbot_at_start = None.
Proof.
  apply (no_session_until_accepted_upload
           [Upload (Scenario.services_up Scenario.scanned_pdf)
              (Scenario.upload_of "notes.txt");
            Chat (Scenario.chat_of (VDict {["message" := VStr "Hi"]}))]
           (Scenario.chat_of VNone)).
  repeat constructor.
  intros (file & Hfile & Hok). vm_compute in Hfile. injection Hfile as <-.
  vm_compute in Hok. discriminate.
Defined.
